(** * Empathetic code reviewer: a shallow embedding of [main.py] and [app.py]

    The development follows the two Python modules of the repository:
    [main.py] (the retrieval system [EmpathyRAGSystem] and the reviewer
    [EmpathethicCodeReviewer]) and [app.py] (the start-up hook and the
    handlers of [POST /review] and [POST /analyze]).

    Conventions of the embedding.
    - A Python [str] is a [string]: the UTF-8 bytes of the text.  White
      space is the one of [str.isspace], read on its UTF-8 encodings.  Case
      folding is the one of the ASCII range, and serves keyword tests only:
      every keyword the program searches for is plain ASCII.
    - A call of an external service (the embedding and the generation
      provider, the FAISS index, [json.loads]) is a field of the record
      [runtime]; the providers thread a state of their own, so that a
      provider may answer differently on each call.
    - Python exceptions are values of [exn]; a computation that may raise
      and may call a provider lives in the monad [M]. *)

From Stdlib Require Import String Ascii List ZArith QArith Lia Bool.
From Stdlib Require Import DecimalString.
Import ListNotations.

Local Open Scope list_scope.
Local Open Scope string_scope.

(** ** Python strings *)

Module PyStr.

Definition nl : string := String (ascii_of_nat 10) EmptyString.
Definition dq : string := String (ascii_of_nat 34) EmptyString.

(** [str(n)] for a non-negative [int]. *)
Definition of_nat (n : nat) : string := NilEmpty.string_of_uint (Nat.to_uint n).

(** Truthiness of a [str]. *)
Definition nonempty (s : string) : bool :=
  match s with EmptyString => false | String _ _ => true end.

Definition lower_ascii (c : ascii) : ascii :=
  let n := nat_of_ascii c in
  if (65 <=? n)%nat && (n <=? 90)%nat then ascii_of_nat (n + 32) else c.

(** [s.lower()] *)
Fixpoint lower (s : string) : string :=
  match s with
  | EmptyString => EmptyString
  | String c t => String (lower_ascii c) (lower t)
  end.

(** [hay.startswith(p)] *)
Fixpoint startswith (p hay : string) : bool :=
  match p, hay with
  | EmptyString, _ => true
  | String a p', String b h' => Ascii.eqb a b && startswith p' h'
  | String _ _, EmptyString => false
  end.

(** [needle in hay] *)
Fixpoint contains (needle hay : string) : bool :=
  startswith needle hay ||
  match hay with
  | EmptyString => false
  | String _ t => contains needle t
  end.

(** [str.isspace] on the ASCII range: TAB, LF, VT, FF, CR, FS, GS, RS, US
    and the space. *)
Definition is_space (c : ascii) : bool :=
  let n := nat_of_ascii c in
  ((9 <=? n)%nat && (n <=? 13)%nat) || ((28 <=? n)%nat && (n <=? 32)%nat).

(** The white space of two bytes: U+0085 and U+00A0. *)
Definition is_space2 (a b : ascii) : bool :=
  (nat_of_ascii a =? 194)%nat
  && ((nat_of_ascii b =? 133)%nat || (nat_of_ascii b =? 160)%nat).

(** The white space of three bytes: U+1680, U+2000 to U+200A, U+2028,
    U+2029, U+202F, U+205F and U+3000. *)
Definition is_space3 (a b c : ascii) : bool :=
  let x := nat_of_ascii a in
  let y := nat_of_ascii b in
  let z := nat_of_ascii c in
  ((x =? 225)%nat && (y =? 154)%nat && (z =? 128)%nat)
  || ((x =? 226)%nat && (y =? 128)%nat
      && (((128 <=? z)%nat && (z <=? 138)%nat)
          || (z =? 168)%nat || (z =? 169)%nat || (z =? 175)%nat))
  || ((x =? 226)%nat && (y =? 129)%nat && (z =? 159)%nat)
  || ((x =? 227)%nat && (y =? 128)%nat && (z =? 128)%nat).

(** The string is one character for which [str.isspace] holds. *)
Definition is_space_char (s : string) : bool :=
  match s with
  | String a EmptyString => is_space a
  | String a (String b EmptyString) => is_space2 a b
  | String a (String b (String c EmptyString)) => is_space3 a b c
  | _ => false
  end.

Fixpoint lstrip (s : string) : string :=
  match s with
  | EmptyString => EmptyString
  | String a t =>
      if is_space a then lstrip t
      else
        match t with
        | String b t2 =>
            if is_space2 a b then lstrip t2
            else
              match t2 with
              | String c t3 => if is_space3 a b c then lstrip t3 else s
              | EmptyString => s
              end
        | EmptyString => s
        end
  end.

(** What is kept of [String a t] is [a] before what is kept of [t], unless
    that is one white-space character. *)
Fixpoint rstrip (s : string) : string :=
  match s with
  | EmptyString => EmptyString
  | String a t =>
      let kept := String a (rstrip t) in
      if is_space_char kept then EmptyString else kept
  end.

(** [s.strip()] *)
Definition strip (s : string) : string := rstrip (lstrip s).

(** [s.split('\n')]: never the empty list. *)
Fixpoint split_nl (s : string) : list string :=
  match s with
  | EmptyString => [EmptyString]
  | String c t =>
      if Ascii.eqb c (ascii_of_nat 10) then EmptyString :: split_nl t
      else match split_nl t with
           | [] => [String c EmptyString]
           | l :: ls => String c l :: ls
           end
  end.

(** [sep.join(parts)] *)
Fixpoint join (sep : string) (parts : list string) : string :=
  match parts with
  | [] => EmptyString
  | [p] => p
  | p :: ps => p ++ sep ++ join sep ps
  end.

(** A byte that continues a UTF-8 sequence: [10xxxxxx]. *)
Definition is_continuation (c : ascii) : bool :=
  let n := nat_of_ascii c in (128 <=? n)%nat && (n <=? 191)%nat.

(** Iterating over a [str] yields its characters: a lead byte together with
    the continuation bytes that follow it. *)
Fixpoint chars (s : string) : list string :=
  match s with
  | EmptyString => []
  | String c t =>
      match chars t with
      | [] => [String c EmptyString]
      | l :: ls =>
          match t with
          | String c' _ =>
              if is_continuation c' then String c l :: ls
              else String c EmptyString :: l :: ls
          | EmptyString => [String c EmptyString]
          end
      end
  end.

End PyStr.
Import PyStr.

(** ** Severity classification ([EmpathethicCodeReviewer._determine_severity]) *)

Definition harsh_indicators : list string :=
  ["bad"; "wrong"; "terrible"; "awful"; "stupid"; "inefficient"].
Definition moderate_indicators : list string :=
  ["should"; "could"; "consider"; "might"].

Definition _determine_severity (comment : string) : string :=
  let comment_lower := lower comment in
  if existsb (fun indicator => contains indicator comment_lower) harsh_indicators
  then "harsh"
  else if existsb (fun indicator => contains indicator comment_lower) moderate_indicators
  then "moderate"
  else "neutral".

(** ** Python values, dictionaries and exceptions *)

Inductive pyfloat : Type :=
| Finite (q : Q)
| PosInf
| NegInf
| NaN.

(** What [json.loads] can return; the reviewer's response dictionaries are
    values of the same type. *)
#[warnings="-register-all"]
Inductive json : Type :=
| JNull
| JBool (b : bool)
| JInt (z : Z)
| JFloat (f : pyfloat)
| JStr (s : string)
| JArr (items : list json)
| JObj (fields : list (string * json)).

(** A [dict] with [str] keys, in insertion order; keys are distinct. *)
Definition dict : Type := list (string * json).

Fixpoint dict_get (key : string) (d : dict) : option json :=
  match d with
  | [] => None
  | (k, v) :: rest => if String.eqb k key then Some v else dict_get key rest
  end.

(** [d[key] = v]: an existing key keeps its place, a new key goes last. *)
Fixpoint dict_set (key : string) (v : json) (d : dict) : dict :=
  match d with
  | [] => [(key, v)]
  | (k, v0) :: rest =>
      if String.eqb k key then (k, v) :: rest else (k, v0) :: dict_set key v rest
  end.

Inductive exn : Type :=
| IndexError
| KeyError (key : string)
| TypeError (what : string)
| AttributeError (what : string)
| ExternalError (msg : string).

Inductive outcome (A : Type) : Type :=
| Returns (a : A)
| Raises (e : exn).
Arguments Returns {A} a.
Arguments Raises {A} e.

Definition obind {A B : Type} (m : outcome A) (k : A -> outcome B) : outcome B :=
  match m with
  | Returns a => k a
  | Raises e => Raises e
  end.

Notation "x <~ m ;; k" := (obind m (fun x => k))
  (at level 61, m at next level, right associativity).

(** Truthiness of a value, as [if v:] tests it. *)
Definition truthy (v : json) : bool :=
  match v with
  | JNull => false
  | JBool b => b
  | JInt z => negb (z =? 0)%Z
  | JFloat (Finite q) => negb (Qeq_bool q 0)
  | JFloat _ => true
  | JStr s => nonempty s
  | JArr items => match items with [] => false | _ => true end
  | JObj fields => match fields with [] => false | _ => true end
  end.

(** [v.get(key, default)]: only a [dict] has the method. *)
Definition py_get (v : json) (key : string) (default : json) : outcome json :=
  match v with
  | JObj d => Returns (match dict_get key d with Some x => x | None => default end)
  | _ => Raises (AttributeError "get")
  end.

(** [v[key] = x] for a [str] key: only a [dict] supports it. *)
Definition py_setitem (v : json) (key : string) (x : json) : outcome json :=
  match v with
  | JObj d => Returns (JObj (dict_set key x d))
  | _ => Raises (TypeError "item assignment")
  end.

(** [for x in v]: lists yield their items, strings their characters,
    dictionaries their keys; the other values are not iterable. *)
Definition py_iter (v : json) : outcome (list json) :=
  match v with
  | JArr items => Returns items
  | JStr s => Returns (map JStr (chars s))
  | JObj fields => Returns (map (fun kv => JStr (fst kv)) fields)
  | _ => Raises (TypeError "not iterable")
  end.

(** [l[idx]] on a list, with Python's negative indices. *)
Definition py_getitem {A : Type} (l : list A) (idx : Z) : outcome A :=
  let n := Z.of_nat (length l) in
  let i := if (idx <? 0)%Z then (idx + n)%Z else idx in
  if (0 <=? i)%Z && (i <? n)%Z
  then match nth_error l (Z.to_nat i) with
       | Some x => Returns x
       | None => Raises IndexError
       end
  else Raises IndexError.

(** ** The knowledge base and the vector index *)

(** A NumPy [float32] vector; finite entries, read as exact rationals. *)
Definition vec : Type := list Q.

Definition zeros (n : nat) : vec := repeat 0%Q n.

Record KnowledgeItem : Type := {
  content : string;
  category : string;
  resource_link : string;
  embedding : vec
}.

(** [faiss.IndexFlatIP]: the dimension and the stored rows. *)
Record faiss_index : Type := {
  index_d : nat;
  index_rows : list vec
}.

Definition IndexFlatIP (d : nat) : faiss_index :=
  {| index_d := d; index_rows := [] |}.

Definition ntotal (ix : faiss_index) : nat := length (index_rows ix).

Record EmpathyRAGSystem : Type := {
  dimension : nat;
  index : faiss_index;
  knowledge_base : list KnowledgeItem
}.

(** One hit of [index.search]: the score [scores[0][i]] and the label
    [indices[0][i]] of the same position. *)
Definition hit : Type := (Q * Z)%type.

(** ** The external collaborators *)

Record runtime : Type := {
  (** the state of the remote services *)
  provider_state : Type;
  (** [genai.embed_content(...)['embedding']]; [None] when the call raises *)
  embed_content : string -> provider_state -> option vec * provider_state;
  (** [model.generate_content(prompt).text]; [None] when the call raises *)
  generate_content : string -> provider_state -> option string * provider_state;
  (** [index.search(query.reshape(1, -1), k)] *)
  faiss_search : faiss_index -> vec -> nat -> outcome (list hit);
  (** [scores[0][i] > 0.1] compares in [float32], as NumPy does from
      version 2 on; earlier versions compare in [float64] *)
  float32_comparison : bool;
  (** [json.loads]; [None] when it raises *)
  json_loads : string -> option json;
  (** the exception [json.loads] raises on the text is
      [json.JSONDecodeError]; the other one is [RecursionError], on a text
      nested too deep *)
  json_decode_error : string -> bool;
  (** [list(set(xs))], in the iteration order of this process *)
  list_of_set : list string -> list string;
  (** [str(v)] of a decoded value that is not a [str] *)
  py_str : json -> string;
  (** [str(e)] of an exception *)
  exn_str : exn -> string
}.

(** The runtime in scope is the one every operation runs in. *)
Existing Class runtime.

Inductive call : Type :=
| CallEmbed (text : string)
| CallGenerate (prompt : string).

Record world (rt : runtime) : Type := {
  pstate : provider_state rt;
  calls : list call
}.
Arguments pstate {rt} w.
Arguments calls {rt} w.

(** Computations that call providers and may raise. *)
Definition M (rt : runtime) (A : Type) : Type := world rt -> outcome A * world rt.

Definition ret {rt : runtime} {A : Type} (a : A) : M rt A := fun w => (Returns a, w).

Definition raise {rt : runtime} {A : Type} (e : exn) : M rt A := fun w => (Raises e, w).

Definition bind {rt : runtime} {A B : Type} (m : M rt A) (k : A -> M rt B) : M rt B :=
  fun w =>
    match m w with
    | (Returns a, w') => k a w'
    | (Raises e, w') => (Raises e, w')
    end.

(** [try: m  except Exception: handler] *)
Definition try_except {rt : runtime} {A : Type} (m : M rt A) (handler : exn -> M rt A) : M rt A :=
  fun w =>
    match m w with
    | (Returns a, w') => (Returns a, w')
    | (Raises e, w') => handler e w'
    end.

Definition lift {rt : runtime} {A : Type} (o : outcome A) : M rt A := fun w => (o, w).

Notation "x <- m ;; k" := (bind m (fun x => k))
  (at level 61, m at next level, right associativity).
Notation "' pat <- m ;; k" := (bind m (fun x => match x with pat => k end))
  (at level 61, pat pattern, m at next level, right associativity).

Definition call_embed {rt : runtime} (text : string) : M rt vec :=
  fun w =>
    let '(r, s) := embed_content rt text (pstate w) in
    let w' := {| pstate := s; calls := (calls w ++ [CallEmbed text])%list |} in
    match r with
    | Some v => (Returns v, w')
    | None => (Raises (ExternalError "embed_content"), w')
    end.

Definition call_generate {rt : runtime} (prompt : string) : M rt string :=
  fun w =>
    let '(r, s) := generate_content rt prompt (pstate w) in
    let w' := {| pstate := s; calls := (calls w ++ [CallGenerate prompt])%list |} in
    match r with
    | Some text => (Returns text, w')
    | None => (Raises (ExternalError "generate_content"), w')
    end.

(** ** [EmpathyRAGSystem] *)

Section RAG.

Context {rt : runtime}.

(** [_get_embedding]: any failure of the provider is absorbed into the zero
    vector of [self.dimension] entries. *)
Definition _get_embedding (self : EmpathyRAGSystem) (text : string) : M rt vec :=
  try_except (call_embed text) (fun _ => ret (zeros (dimension self))).

Record catalog_entry : Type := {
  entry_content : string;
  entry_category : string;
  entry_resource_link : string
}.

Definition knowledge_items : list catalog_entry :=
  [ {| entry_content := "List comprehensions in Python are more efficient than traditional for loops with append operations because they are optimized at the C level and don't require multiple function calls.";
       entry_category := "performance";
       entry_resource_link := "https://docs.python.org/3/tutorial/datastructures.html#list-comprehensions" |};
    {| entry_content := "Meaningful variable names improve code readability and maintainability. Single-letter variables should be avoided except for short loops or mathematical contexts.";
       entry_category := "readability";
       entry_resource_link := "https://pep8.org/#naming-conventions" |};
    {| entry_content := "Comparing boolean values with == True or == False is redundant in Python. The truthiness of the value can be evaluated directly.";
       entry_category := "pythonic";
       entry_resource_link := "https://pep8.org/#programming-recommendations" |};
    {| entry_content := "Code reviews should focus on improvement rather than criticism. Constructive feedback helps team members learn and grow.";
       entry_category := "team_dynamics";
       entry_resource_link := "https://google.github.io/eng-practices/review/reviewer/comments.html" |};
    {| entry_content := "Performance optimizations should be considered when dealing with large datasets. Algorithm complexity matters for scalability.";
       entry_category := "performance";
       entry_resource_link := "https://wiki.python.org/moin/PythonSpeed/PerformanceTips" |};
    {| entry_content := "Filter operations in functional programming can be combined with map operations for cleaner, more readable code.";
       entry_category := "functional_programming";
       entry_resource_link := "https://docs.python.org/3/howto/functional.html" |} ].

(** The loop of [_initialize_knowledge_base] (lines 74-87).  Its body embeds
    the entry and appends the item to [self.knowledge_base]; the call
    [self.index.add(...)] of line 87 is part of a comment and is not
    executed, so [self.index] is left as it is. *)
Fixpoint initialize_loop (self : EmpathyRAGSystem) (items : list catalog_entry)
  : M rt EmpathyRAGSystem :=
  match items with
  | [] => ret self
  | item_data :: rest =>
      embedding <- _get_embedding self (entry_content item_data) ;;
      let knowledge_item :=
        {| content := entry_content item_data;
           category := entry_category item_data;
           resource_link := entry_resource_link item_data;
           embedding := embedding |} in
      initialize_loop
        {| dimension := dimension self;
           index := index self;
           knowledge_base := (knowledge_base self ++ [knowledge_item])%list |}
        rest
  end.

Definition _initialize_knowledge_base (self : EmpathyRAGSystem) : M rt EmpathyRAGSystem :=
  initialize_loop self knowledge_items.

(** [EmpathyRAGSystem.__init__] *)
Definition EmpathyRAGSystem_init : M rt EmpathyRAGSystem :=
  _initialize_knowledge_base
    {| dimension := 768; index := IndexFlatIP 768; knowledge_base := [] |}.

(** The literal [0.1] of line 112: the binary64 number nearest to one tenth. *)
Definition threshold : Q := 3602879701896397 # 36028797018963968.

(** The same literal rounded to [float32]. *)
Definition threshold_float32 : Q := 13421773 # 134217728.

(** The number a [float32] score is compared with at line 112. *)
Definition effective_threshold : Q :=
  if float32_comparison rt then threshold_float32 else threshold.

Definition Qgt_bool (a b : Q) : bool := negb (Qle_bool a b).

(** The loop of [retrieve_relevant_knowledge] (lines 110-115). *)
Fixpoint select_hits (kb : list KnowledgeItem) (hits : list hit)
  (relevant_items : list KnowledgeItem) : outcome (list KnowledgeItem) :=
  match hits with
  | [] => Returns relevant_items
  | (score, idx) :: rest =>
      if (idx <? Z.of_nat (length kb))%Z && Qgt_bool score effective_threshold
      then item <~ py_getitem kb idx ;;
           select_hits kb rest (relevant_items ++ [item])%list
      else select_hits kb rest relevant_items
  end.

Definition retrieve_relevant_knowledge (self : EmpathyRAGSystem) (query : string) (k : nat)
  : M rt (list KnowledgeItem) :=
  query_embedding <- _get_embedding self query ;;
  hits <- lift (faiss_search rt (index self) query_embedding k) ;;
  lift (select_hits (knowledge_base self) hits []).

End RAG.

(** ** [EmpathethicCodeReviewer] *)

Record EmpathethicCodeReviewer : Type := {
  rag_system : EmpathyRAGSystem
}.

Section Reviewer.

Context {rt : runtime}.

(** [EmpathethicCodeReviewer.__init__] *)
Definition EmpathethicCodeReviewer_init : M rt EmpathethicCodeReviewer :=
  rag <- EmpathyRAGSystem_init ;;
  ret {| rag_system := rag |}.

Definition severity_guidance : dict :=
  [ ("harsh", JStr "The original comment was quite direct. Please be extra gentle and encouraging in your response.");
    ("moderate", JStr "The original comment was moderately constructive. Maintain a supportive tone.");
    ("neutral", JStr "The original comment was neutral. Provide balanced, educational feedback.") ].

(** [f"{v}"] *)
Definition format_value (v : json) : string :=
  match v with
  | JStr s => s
  | _ => py_str rt v
  end.

Definition response_prompt (code_snippet comment guidance context : string) : string :=
  nl ++ "You are an empathetic senior developer reviewing code. Transform the following critical comment into constructive, educational feedback." ++ nl
  ++ nl
  ++ "Code Snippet:" ++ nl
  ++ "```python" ++ nl
  ++ code_snippet ++ nl
  ++ "```" ++ nl
  ++ nl
  ++ "Original Comment: " ++ dq ++ comment ++ dq ++ nl
  ++ nl
  ++ "Severity Context: " ++ guidance ++ nl
  ++ nl
  ++ "Relevant Knowledge Context:" ++ nl
  ++ context ++ nl
  ++ nl
  ++ "Please provide:" ++ nl
  ++ nl
  ++ "1. **Positive Rephrasing**: Rewrite the comment to be encouraging and constructive while maintaining the technical accuracy. Start with something positive about the code." ++ nl
  ++ nl
  ++ "2. **The 'Why'**: Explain the underlying software engineering principle or best practice. Make it educational and help the developer understand the reasoning." ++ nl
  ++ nl
  ++ "3. **Suggested Improvement**: Provide a concrete code example that demonstrates the recommended fix. Make sure it's directly applicable to the given code snippet." ++ nl
  ++ nl
  ++ "Format your response as JSON with keys: " ++ dq ++ "positive_rephrasing" ++ dq ++ ", "
  ++ dq ++ "the_why" ++ dq ++ ", " ++ dq ++ "suggested_improvement" ++ dq ++ ", "
  ++ dq ++ "code_example" ++ dq ++ nl
  ++ nl
  ++ "Be warm, encouraging, and educational. Focus on growth and learning rather than criticism." ++ nl.

(** The dictionary returned when the generation step fails (lines 197-203). *)
Definition fallback_response : dict :=
  [ ("positive_rephrasing", JStr "Thanks for sharing your code! There's an opportunity to improve this section.");
    ("the_why", JStr "Code improvements help with maintainability and performance.");
    ("suggested_improvement", JStr "Consider refactoring this section for better clarity.");
    ("code_example", JStr "# Improved version would go here");
    ("resource_links", JArr []) ].

(** ** The heuristic parser ([_parse_fallback_response]) *)

Definition empty_result : dict :=
  [ ("positive_rephrasing", JStr "");
    ("the_why", JStr "");
    ("suggested_improvement", JStr "");
    ("code_example", JStr "");
    ("resource_links", JArr []) ].

(** [result[section] += text] on a [str] entry. *)
Definition dict_iadd (section text : string) (result : dict) : dict :=
  match dict_get section result with
  | Some (JStr s) => dict_set section (JStr (s ++ text)) result
  | _ => result
  end.

Definition dict_has (key : string) (d : dict) : bool :=
  match dict_get key d with Some _ => true | None => false end.

(** One iteration of the loop of lines 219-231; the state is
    [current_section] ([None] when no section is active) and [result]. *)
Definition fallback_step (st : option string * dict) (raw : string) : option string * dict :=
  let '(current_section, result) := st in
  let line := strip raw in
  if contains "positive rephrasing" (lower line) then
    (Some "positive_rephrasing", result)
  else if contains "why" (lower line) then
    (Some "the_why", result)
  else if contains "suggested improvement" (lower line) || contains "improvement" (lower line) then
    (Some "suggested_improvement", result)
  else if startswith "```" line then
    (match current_section with
     | Some sec => if String.eqb sec "code_example" then None else Some "code_example"
     | None => Some "code_example"
     end, result)
  else
    match current_section with
    | Some sec =>
        if nonempty sec && nonempty line then
          if dict_has sec result
          then (current_section, dict_iadd sec (line ++ " ") result)
          else st
        else st
    | None => st
    end.

Definition _parse_fallback_response (response_text : string) : dict :=
  snd (fold_left fallback_step (split_nl response_text) (None, empty_result)).

(** ** Feedback synthesis ([_generate_empathetic_response]) *)

Definition _generate_empathetic_response (code_snippet comment severity : string)
  (relevant_knowledge : list KnowledgeItem) : M rt json :=
  let context := join nl (map (fun item => "- " ++ content item) relevant_knowledge) in
  let resource_links := map resource_link relevant_knowledge in
  match dict_get severity severity_guidance with
  | None => raise (KeyError severity)
  | Some guidance =>
      let prompt := response_prompt code_snippet comment (format_value guidance) context in
      try_except
        (text <- call_generate prompt ;;
         result <- match json_loads rt (strip text) with
                   | Some decoded => ret decoded
                   | None =>
                       if json_decode_error rt (strip text)
                       then ret (JObj (_parse_fallback_response text))
                       else raise (ExternalError "RecursionError")
                   end ;;
         match resource_links with
         | [] => ret result
         | _ :: _ =>
             lift (py_setitem result "resource_links"
                     (JArr (map JStr (list_of_set rt resource_links))))
         end)
        (fun _ => ret (JObj fallback_response))
  end.

(** ** The holistic summary ([_generate_holistic_summary]) *)

Definition summary_prompt (comments : list string) : string :=
  nl ++ "Based on the code review feedback provided, generate a brief, encouraging summary that:" ++ nl
  ++ "1. Acknowledges the positive aspects of the original code" ++ nl
  ++ "2. Highlights the main learning opportunities" ++ nl
  ++ "3. Motivates the developer to continue improving" ++ nl
  ++ "4. Keeps a warm, supportive tone" ++ nl
  ++ nl
  ++ "Original code had " ++ of_nat (length comments) ++ " review points. Focus on growth and learning." ++ nl
  ++ "Keep the summary to 2-3 sentences maximum." ++ nl.

Definition fallback_summary : string :=
  "Great work on submitting your code for review! The feedback provided will help you write even better code in the future. Keep up the excellent learning attitude!".

Definition _generate_holistic_summary (code_snippet : string) (comments : list string)
  (feedback : list json) : M rt string :=
  try_except
    (text <- call_generate (summary_prompt comments) ;;
     ret (strip text))
    (fun _ => ret fallback_summary).

(** ** The report ([process_review]) *)

(** [input_data]: a key that is absent is [None]. *)
Record input_data : Type := {
  code_snippet : option string;
  review_comments : option (list string)
}.

Definition missing_input_message : string :=
  "Error: Missing code snippet or review comments.".

Definition report_title : string :=
  "# Empathetic Code Review Report" ++ nl ++ nl.

Definition code_under_review (code : string) : string :=
  "## Code Under Review" ++ nl ++ nl ++ "```python" ++ nl ++ code ++ nl ++ "```" ++ nl ++ nl.

Definition section_header (i : nat) (comment : string) : string :=
  "### Analysis of Comment " ++ of_nat i ++ ": " ++ dq ++ comment ++ dq ++ nl ++ nl.

Definition code_block (code_example : json) : string :=
  "```python" ++ nl ++ format_value code_example ++ nl ++ "```" ++ nl ++ nl.

Definition link_line (link : json) : string :=
  "- [" ++ format_value link ++ "](" ++ format_value link ++ ")" ++ nl.

Definition resources_block (links : list json) : string :=
  "**Additional Resources:**" ++ nl ++ String.concat "" (map link_line links) ++ nl.

Definition section_separator : string := "---" ++ nl ++ nl.

(** Lines 261-275: the section of one comment, from the response of the
    synthesis step. *)
Definition render_section (i : nat) (comment : string) (response : json) : outcome string :=
  let section := section_header i comment in
  positive_rephrasing <~ py_get response "positive_rephrasing" (JStr "") ;;
  let section := section ++ "**Positive Rephrasing:** " ++ format_value positive_rephrasing ++ nl ++ nl in
  the_why <~ py_get response "the_why" (JStr "") ;;
  let section := section ++ "**The 'Why':** " ++ format_value the_why ++ nl ++ nl in
  suggested_improvement <~ py_get response "suggested_improvement" (JStr "") ;;
  let section := section ++ "**Suggested Improvement:**" ++ nl ++ format_value suggested_improvement ++ nl ++ nl in
  code_example <~ py_get response "code_example" JNull ;;
  section <~ (if truthy code_example
              then code_example' <~ py_get response "code_example" (JStr "") ;;
                   Returns (section ++ code_block code_example')
              else Returns section) ;;
  resource_links <~ py_get response "resource_links" JNull ;;
  section <~ (if truthy resource_links
              then resource_links' <~ py_get response "resource_links" (JArr []) ;;
                   links <~ py_iter resource_links' ;;
                   Returns (section ++ resources_block links)
              else Returns section) ;;
  Returns (section ++ section_separator).

(** The loop of lines 248-277; [i] is the number of the next comment. *)
Fixpoint review_loop (self : EmpathethicCodeReviewer) (code : string)
  (comments : list string) (i : nat) (markdown_report : string) (all_feedback : list json)
  : M rt (string * list json) :=
  match comments with
  | [] => ret (markdown_report, all_feedback)
  | comment :: rest =>
      relevant_knowledge <- retrieve_relevant_knowledge (rag_system self) comment 3 ;;
      let severity := _determine_severity comment in
      response <- _generate_empathetic_response code comment severity relevant_knowledge ;;
      section <- lift (render_section i comment response) ;;
      review_loop self code rest (S i) (markdown_report ++ section) (all_feedback ++ [response])%list
  end.

Definition summary_section (summary : string) : string :=
  "## Overall Summary" ++ nl ++ nl ++ summary ++ nl ++ nl.

(** The last line of the report; it ends with the nine bytes that follow the
    asterisk in the source file. *)
Definition closing_line : string :=
  "*Remember: Every piece of feedback is an opportunity to grow. Keep coding and keep learning!* "
  ++ String (ascii_of_nat 195) (String (ascii_of_nat 176) (String (ascii_of_nat 197)
     (String (ascii_of_nat 184) (String (ascii_of_nat 197) (String (ascii_of_nat 161)
     (String (ascii_of_nat 226) (String (ascii_of_nat 130) (String (ascii_of_nat 172)
     EmptyString)))))))).

Definition process_review (self : EmpathethicCodeReviewer) (input : input_data) : M rt string :=
  let code := match code_snippet input with Some s => s | None => "" end in
  let comments := match review_comments input with Some l => l | None => [] end in
  if negb (nonempty code) || match comments with [] => true | _ :: _ => false end
  then ret missing_input_message
  else
    let markdown_report := report_title ++ code_under_review code in
    '(markdown_report, all_feedback) <- review_loop self code comments 1 markdown_report [] ;;
    summary <- _generate_holistic_summary code comments all_feedback ;;
    ret (markdown_report ++ summary_section summary ++ closing_line).

(** ** The handler of [POST /review] in [app.py] *)

Record CodeReviewRequest : Type := {
  request_code_snippet : string;
  request_review_comments : list string
}.

Record CodeReviewResponse : Type := {
  markdown_report : string;
  success : bool;
  message : string
}.

(** What a handler gives back to the serving layer: a body, sent with status
    200, or an [HTTPException]. *)
Inductive http_result : Type :=
| Http200 (body : CodeReviewResponse)
| HTTPException (status_code : Z) (detail : string).

Definition http_status (r : http_result) : Z :=
  match r with
  | Http200 _ => 200
  | HTTPException status_code _ => status_code
  end.

(** [POST /review] *)
Definition generate_empathetic_review (reviewer : EmpathethicCodeReviewer)
  (request : CodeReviewRequest) (w : world rt) : http_result * world rt :=
  let input :=
    {| code_snippet := Some (request_code_snippet request);
       review_comments := Some (request_review_comments request) |} in
  match process_review reviewer input w with
  | (Returns report, w') =>
      (Http200 {| markdown_report := report; success := true; message := "" |}, w')
  | (Raises e, w') =>
      (HTTPException 500 ("Error generating review: " ++ exn_str rt e), w')
  end.

End Reviewer.

(** ** The handler of [POST /analyze] and the start-up hook of [app.py] *)

Record CodeAnalysisRequest : Type := {
  analysis_code_snippet : string;
  query : string
}.

Record CodeAnalysisResponse : Type := {
  analysis : string;
  analysis_success : bool;
  analysis_message : string
}.

Inductive analysis_result : Type :=
| Analysis200 (body : CodeAnalysisResponse)
| AnalysisException (status_code : Z) (detail : string).

(** [POST /analyze]: the query is the only comment of a review. *)
Definition analyze_code {rt : runtime} (reviewer : EmpathethicCodeReviewer)
  (request : CodeAnalysisRequest) (w : world rt) : analysis_result * world rt :=
  let review_comments := [query request] in
  let input :=
    {| code_snippet := Some (analysis_code_snippet request);
       review_comments := Some review_comments |} in
  match process_review reviewer input w with
  | (Returns analysis_report, w') =>
      (Analysis200 {| analysis := analysis_report;
                      analysis_success := true;
                      analysis_message := "" |}, w')
  | (Raises e, w') =>
      (AnalysisException 500 ("Error analyzing code: " ++ exn_str rt e), w')
  end.

(** How the start-up hook ends: [app.state.reviewer] is set, the hook raises
    its [RuntimeError], or the constructor of the reviewer raises. *)
Inductive startup_result : Type :=
| AppStarted (reviewer : EmpathethicCodeReviewer)
| StartupRuntimeError (msg : string)
| StartupRaised (e : exn).

(** [startup_event]; [API_KEY] is [os.getenv("GEMINI_API_KEY")], [None] when
    the variable is not set. *)
Definition startup_event {rt : runtime} (API_KEY : option string) (w : world rt)
  : startup_result * world rt :=
  match API_KEY with
  | Some (String c key) =>
      match EmpathethicCodeReviewer_init w with
      | (Returns reviewer, w') => (AppStarted reviewer, w')
      | (Raises e, w') => (StartupRaised e, w')
      end
  | _ => (StartupRuntimeError "GEMINI_API_KEY environment variable not set", w)
  end.

(** ** Vocabulary of the statements *)

(** [w] occurs in [comment] up to the case of the letters: some substring of
    the comment lowers to [w]. *)
Definition occurs_ci (w comment : string) : Prop :=
  exists pre u post, comment = pre ++ u ++ post /\ lower u = w.

(** A runtime for closed examples.  The provider state counts the calls; the
    embedding provider always fails and the other collaborators are given. *)
Definition stub_runtime (generate : string -> option string)
  (loads : string -> option json) (search : nat -> outcome (list hit)) : runtime :=
  {| provider_state := nat;
     embed_content := fun _ n => (None, S n);
     generate_content := fun prompt n => (generate prompt, S n);
     faiss_search := fun _ _ k => search k;
     float32_comparison := true;
     json_loads := loads;
     json_decode_error := fun _ => true;
     list_of_set := nodup string_dec;
     py_str := fun _ => "<value>";
     exn_str := fun _ => "<exception>" |}.

Definition stub_world (rt : runtime) (s : provider_state rt) : world rt :=
  {| pstate := s; calls := [] |}.

(** What [faiss] answers on an index without rows: [k] times the label [-1]
    with the lowest [float32]. *)
Definition no_hits (k : nat) : outcome (list hit) :=
  Returns (repeat ((-340282346638528859811704183484516925440 # 1)%Q, (-1)%Z) k).

(** The reviewer as [__init__] leaves it when every embedding fell back to
    the zero vector. *)
Definition stub_reviewer : EmpathethicCodeReviewer :=
  {| rag_system :=
       {| dimension := 768;
          index := IndexFlatIP 768;
          knowledge_base :=
            map (fun e => {| content := entry_content e;
                             category := entry_category e;
                             resource_link := entry_resource_link e;
                             embedding := zeros 768 |}) knowledge_items |} |}.

(** The test of line 112 on one hit. *)
Definition selected {rt : runtime} (kb : list KnowledgeItem) (h : hit) : bool :=
  (snd h <? Z.of_nat (length kb))%Z && Qgt_bool (fst h) (effective_threshold (rt := rt)).

(** An index that answers one hit: the label [-1] with the score one half. *)
Definition sentinel_hit (k : nat) : outcome (list hit) :=
  Returns [((1 # 2)%Q, (-1)%Z)].

(** *** The heuristic parser as the specification words it

    A line state machine.  A line whose lowered text contains
    "positive rephrasing", "why", or "suggested improvement" or "improvement"
    switches the active section; a line that starts with the fence marker
    toggles the code-example section; every other non-empty line is appended,
    followed by a space, to the text of the active section, and is dropped
    when no section is active. *)

Inductive section_tag : Type :=
| PositiveRephrasing
| TheWhy
| SuggestedImprovement
| CodeExample.

Record section_texts : Type := {
  positive_rephrasing_text : string;
  the_why_text : string;
  suggested_improvement_text : string;
  code_example_text : string
}.

Definition empty_texts : section_texts :=
  {| positive_rephrasing_text := "";
     the_why_text := "";
     suggested_improvement_text := "";
     code_example_text := "" |}.

Definition append_text (tag : section_tag) (text : string) (t : section_texts)
  : section_texts :=
  match tag with
  | PositiveRephrasing =>
      {| positive_rephrasing_text := positive_rephrasing_text t ++ text;
         the_why_text := the_why_text t;
         suggested_improvement_text := suggested_improvement_text t;
         code_example_text := code_example_text t |}
  | TheWhy =>
      {| positive_rephrasing_text := positive_rephrasing_text t;
         the_why_text := the_why_text t ++ text;
         suggested_improvement_text := suggested_improvement_text t;
         code_example_text := code_example_text t |}
  | SuggestedImprovement =>
      {| positive_rephrasing_text := positive_rephrasing_text t;
         the_why_text := the_why_text t;
         suggested_improvement_text := suggested_improvement_text t ++ text;
         code_example_text := code_example_text t |}
  | CodeExample =>
      {| positive_rephrasing_text := positive_rephrasing_text t;
         the_why_text := the_why_text t;
         suggested_improvement_text := suggested_improvement_text t;
         code_example_text := code_example_text t ++ text |}
  end.

Inductive line_kind : Type :=
| Header (tag : section_tag)
| Fence
| Content (line : string)
| Blank.

Definition classify_line (raw : string) : line_kind :=
  let line := strip raw in
  if contains "positive rephrasing" (lower line) then Header PositiveRephrasing
  else if contains "why" (lower line) then Header TheWhy
  else if contains "suggested improvement" (lower line) || contains "improvement" (lower line)
  then Header SuggestedImprovement
  else if startswith "```" line then Fence
  else if nonempty line then Content line
  else Blank.

Definition machine_step (st : option section_tag * section_texts) (raw : string)
  : option section_tag * section_texts :=
  let '(active, texts) := st in
  match classify_line raw with
  | Header tag => (Some tag, texts)
  | Fence =>
      (match active with
       | Some CodeExample => None
       | _ => Some CodeExample
       end, texts)
  | Content line =>
      match active with
      | Some tag => (active, append_text tag (line ++ " ") texts)
      | None => st
      end
  | Blank => st
  end.

Definition machine_run (lines : list string) : option section_tag * section_texts :=
  fold_left machine_step lines (None, empty_texts).

Definition machine_parse (response_text : string) : section_texts :=
  snd (machine_run (split_nl response_text)).

(** The dictionary that carries the four texts. *)
Definition dict_of_texts (t : section_texts) : dict :=
  [ ("positive_rephrasing", JStr (positive_rephrasing_text t));
    ("the_why", JStr (the_why_text t));
    ("suggested_improvement", JStr (suggested_improvement_text t));
    ("code_example", JStr (code_example_text t));
    ("resource_links", JArr []) ].

Definition tag_key (tag : section_tag) : string :=
  match tag with
  | PositiveRephrasing => "positive_rephrasing"
  | TheWhy => "the_why"
  | SuggestedImprovement => "suggested_improvement"
  | CodeExample => "code_example"
  end.

(** A line that is neither a header nor a fence. *)
Definition plain_line (raw : string) : Prop :=
  match classify_line raw with
  | Header _ | Fence => False
  | Content _ | Blank => True
  end.

(** A provider answer that is not JSON: a preamble, two headed sections and
    a fenced example. *)
Definition sample_answer : string :=
  "Here is my review." ++ nl
  ++ "**Positive Rephrasing**" ++ nl
  ++ "Nice start!" ++ nl
  ++ "Keep going." ++ nl
  ++ "The Why" ++ nl
  ++ "Readable names help." ++ nl
  ++ "```python" ++ nl
  ++ "user = 1" ++ nl
  ++ "```" ++ nl
  ++ "trailing remark".

(** The state of the loop in the source and the state of the machine. *)
Definition parser_states_agree (st : option string * dict)
  (ms : option section_tag * section_texts) : Prop :=
  fst st = option_map tag_key (fst ms) /\ snd st = dict_of_texts (snd ms).

(** *** Determinism *)

(** The outcome of a computation does not depend on the world it starts in. *)
Definition deterministic {rt : runtime} {A : Type} (m : M rt A) : Prop :=
  forall w1 w2, fst (m w1) = fst (m w2).

(** A deterministic stub: the answer depends on the request alone, whatever
    the state of the provider. *)
Definition deterministic_providers (rt : runtime) : Prop :=
  (forall text s1 s2, fst (embed_content rt text s1) = fst (embed_content rt text s2))
  /\ (forall prompt s1 s2,
        fst (generate_content rt prompt s1) = fst (generate_content rt prompt s2)).

(** *** The shape of the report *)

Definition get_or (key : string) (default : json) (d : dict) : json :=
  match dict_get key d with Some v => v | None => default end.

Section ReportShape.

Context {rt : runtime}.

(** The section of comment number [i]: the header with the comment between
    quotes, the three labelled fields, the code block when the code example
    is truthy, the resources when there are links, and the separator. *)
Definition section_text (i : nat) (comment : string) (d : dict) (links : list json) : string :=
  section_header i comment
  ++ ("**Positive Rephrasing:** "
        ++ format_value (rt := rt) (get_or "positive_rephrasing" (JStr "") d) ++ nl ++ nl)
  ++ ("**The 'Why':** " ++ format_value (rt := rt) (get_or "the_why" (JStr "") d) ++ nl ++ nl)
  ++ ("**Suggested Improvement:**" ++ nl
        ++ format_value (rt := rt) (get_or "suggested_improvement" (JStr "") d) ++ nl ++ nl)
  ++ (if truthy (get_or "code_example" JNull d)
      then code_block (rt := rt) (get_or "code_example" (JStr "") d)
      else "")
  ++ (match links with
      | [] => ""
      | _ :: _ => resources_block (rt := rt) links
      end)
  ++ section_separator.

(** The comments with their numbers, from [start] on. *)
Definition numbered (start : nat) (comments : list string) : list (nat * string) :=
  combine (seq start (length comments)) comments.






End ReportShape.

(** *** Further vocabulary *)

(** The texts of the embedding calls of a log, in order. *)
Fixpoint embedded_texts (cs : list call) : list string :=
  match cs with
  | [] => []
  | CallEmbed text :: rest => text :: embedded_texts rest
  | CallGenerate _ :: rest => embedded_texts rest
  end.

(** The prompts of the generation calls of a log, in order. *)
Fixpoint generated_prompts (cs : list call) : list string :=
  match cs with
  | [] => []
  | CallEmbed _ :: rest => generated_prompts rest
  | CallGenerate prompt :: rest => prompt :: generated_prompts rest
  end.

(** The value is a [dict]. *)
Definition is_dict (v : json) : bool :=
  match v with JObj _ => true | _ => false end.

(** The line is caught by one of the first four tests of the parser's loop:
    a header keyword in its lowered text or a fence at its start. *)
Definition has_marker (raw : string) : bool :=
  let line := strip raw in
  contains "positive rephrasing" (lower line)
  || contains "why" (lower line)
  || contains "suggested improvement" (lower line)
  || contains "improvement" (lower line)
  || startswith "```" line.

(** The character occurs in the string. *)
Fixpoint has_char (c : ascii) (s : string) : bool :=
  match s with
  | EmptyString => false
  | String x t => Ascii.eqb c x || has_char c t
  end.

(** The severities in the order of their gravity. *)
Definition severity_rank (severity : string) : nat :=
  if String.eqb severity "harsh" then 2
  else if String.eqb severity "moderate" then 1
  else 0.

(** The five keys [process_review] reads from a response. *)
Definition rendered_keys : list string :=
  ["positive_rephrasing"; "the_why"; "suggested_improvement"; "code_example";
   "resource_links"].

(** The knowledge item of a catalogue entry whose embedding fell back to the
    zero vector. *)
Definition zero_item (d : nat) (e : catalog_entry) : KnowledgeItem :=
  {| content := entry_content e;
     category := entry_category e;
     resource_link := entry_resource_link e;
     embedding := zeros d |}.

(** An index whose search fails, as [faiss] does on a query of the wrong
    dimension. *)
Definition failing_search (k : nat) : outcome (list hit) :=
  Raises (ExternalError "AssertionError").

(** What the synthesis step decodes from the text of the provider. *)
Definition decoded_result (rt : runtime) (text : string) : outcome json :=
  match json_loads rt (strip text) with
  | Some decoded => Returns decoded
  | None =>
      if json_decode_error rt (strip text)
      then Returns (JObj (_parse_fallback_response text))
      else Raises (ExternalError "RecursionError")
  end.

(** The links the synthesis step sets on a response. *)
Definition links_value (rt : runtime) (relevant_knowledge : list KnowledgeItem) : json :=
  JArr (map JStr (list_of_set rt (map resource_link relevant_knowledge))).

(** The context of the prompt: one line per retrieved item. *)
Definition knowledge_context (relevant_knowledge : list KnowledgeItem) : string :=
  join nl (map (fun item => "- " ++ content item) relevant_knowledge).

(** The computation returned rather than raised. *)
Definition returned {A : Type} (o : outcome A) : bool :=
  match o with Returns _ => true | Raises _ => false end.

(** A text on one line that is empty or ends with a space. *)
Definition flat (s : string) : Prop :=
  has_char (ascii_of_nat 10) s = false /\ (s = "" \/ exists body, s = body ++ " ").

Definition texts_flat (t : section_texts) : Prop :=
  flat (positive_rephrasing_text t) /\ flat (the_why_text t)
  /\ flat (suggested_improvement_text t) /\ flat (code_example_text t).

(** The UTF-8 bytes of U+00A0, the no-break space, and of U+3000, the
    ideographic space. *)
Definition no_break_space : string :=
  String (ascii_of_nat 194) (String (ascii_of_nat 160) EmptyString).

Definition ideographic_space : string :=
  String (ascii_of_nat 227) (String (ascii_of_nat 128) (String (ascii_of_nat 128) EmptyString)).

(** The same runtime under a NumPy that compares in [float64]. *)
Definition with_float64_comparison (rt : runtime) : runtime :=
  {| provider_state := provider_state rt;
     embed_content := embed_content rt;
     generate_content := generate_content rt;
     faiss_search := faiss_search rt;
     float32_comparison := false;
     json_loads := json_loads rt;
     json_decode_error := json_decode_error rt;
     list_of_set := list_of_set rt;
     py_str := py_str rt;
     exn_str := exn_str rt |}.

(** * Properties *)

(** ** Strings *)

Lemma startswith_spec (p hay : string) :
  startswith p hay = true <-> exists post, hay = p ++ post.
Proof.
  revert hay; induction p as [|a p IH]; intros hay; simpl.
  - split; [intros _; now exists hay | reflexivity].
  - destruct hay as [|b h].
    + split; [discriminate | intros [post H]; discriminate].
    + rewrite andb_true_iff, Ascii.eqb_eq, IH. split.
      * intros [-> [post ->]]. now exists post.
      * intros [post H]. injection H as -> ->. split; [reflexivity | now exists post].
Qed.

Lemma contains_spec (needle hay : string) :
  contains needle hay = true <-> exists pre post, hay = pre ++ needle ++ post.
Proof.
  induction hay as [|c h IH].
  - simpl. rewrite orb_false_r, startswith_spec. split.
    + intros [post H]. now exists "", post.
    + intros [pre [post H]]. destruct pre; [now exists post | discriminate].
  - cbn [contains]. rewrite orb_true_iff, startswith_spec, IH. split.
    + intros [[post H] | [pre [post H]]].
      * now exists "", post.
      * exists (String c pre), post. simpl. now rewrite H.
    + intros [pre [post H]]. destruct pre as [|c' pre].
      * left. now exists post.
      * right. injection H as -> ->. now exists pre, post.
Qed.

Lemma lower_app (a b : string) : lower (a ++ b) = lower a ++ lower b.
Proof. induction a as [|c a IH]; simpl; [reflexivity | now rewrite IH]. Qed.

Lemma lower_split (s a b : string) :
  lower s = a ++ b -> exists s1 s2, s = s1 ++ s2 /\ lower s1 = a /\ lower s2 = b.
Proof.
  revert s; induction a as [|c a IH]; intros s H.
  - now exists "", s.
  - destruct s as [|x s]; [discriminate |].
    simpl in H. injection H as Hc Hs.
    destruct (IH s Hs) as [s1 [s2 [-> [H1 H2]]]].
    exists (String x s1), s2. simpl. now rewrite Hc, H1.
Qed.

(** The test [w in comment.lower()] decides [occurs_ci]. *)
Lemma contains_lower_spec (w comment : string) :
  contains w (lower comment) = true <-> occurs_ci w comment.
Proof.
  rewrite contains_spec. split.
  - intros [pre [post H]].
    destruct (lower_split _ _ _ H) as [s1 [s23 [-> [_ H23]]]].
    destruct (lower_split _ _ _ H23) as [s2 [s3 [-> [H2 _]]]].
    now exists s1, s2, s3.
  - intros [pre [u [post [-> Hu]]]].
    exists (lower pre), (lower post). now rewrite !lower_app, Hu.
Qed.

Lemma existsb_occurs (ws : list string) (comment : string) :
  existsb (fun w => contains w (lower comment)) ws = true
  <-> Exists (fun w => occurs_ci w comment) ws.
Proof.
  rewrite existsb_exists, Exists_exists.
  split; intros [w [Hin H]]; exists w; split; auto; now apply contains_lower_spec.
Qed.

(** ** Severity *)

Lemma determine_severity_range (comment : string) :
  In (_determine_severity comment) ["harsh"; "moderate"; "neutral"].
Proof.
  unfold _determine_severity.
  destruct (existsb _ harsh_indicators); [simpl; auto |].
  destruct (existsb _ moderate_indicators); simpl; auto.
Qed.



(** ** Loading the knowledge base *)

Lemma get_embedding_returns {rt : runtime} (self : EmpathyRAGSystem) (text : string)
  (w : world rt) :
  exists v w', _get_embedding self text w = (Returns v, w')
               /\ calls w' = (calls w ++ [CallEmbed text])%list.
Proof.
  unfold _get_embedding, try_except, call_embed, ret.
  destruct (embed_content rt text (pstate w)) as [[v|] s]; simpl; eauto.
Qed.

Lemma initialize_loop_spec {rt : runtime} (items : list catalog_entry) :
  forall (self : EmpathyRAGSystem) (w : world rt),
  exists self' w',
    initialize_loop self items w = (Returns self', w')
    /\ index self' = index self
    /\ dimension self' = dimension self
    /\ map content (knowledge_base self')
       = (map content (knowledge_base self) ++ map entry_content items)%list
    /\ calls w' = (calls w ++ map CallEmbed (map entry_content items))%list.
Proof.
  induction items as [|item rest IH]; intros self w.
  - exists self, w. simpl. unfold ret. now rewrite !app_nil_r.
  - destruct (get_embedding_returns self (entry_content item) w) as [v [w1 [Hv Hc]]].
    cbn [initialize_loop]. unfold bind at 1. rewrite Hv.
    match goal with |- context [initialize_loop ?s rest w1] =>
      destruct (IH s w1) as [self' [w' [Hrun [Hi [Hd [Hk Hcalls]]]]]] end.
    exists self', w'. rewrite Hrun. simpl in Hi, Hd, Hk.
    repeat split; auto.
    + rewrite Hk, map_app. simpl. now rewrite <- app_assoc.
    + rewrite Hcalls, Hc. simpl. now rewrite <- app_assoc.
Qed.

(** The reviewer of the closed examples is the one [__init__] builds when
    the embedding provider fails on every call. *)
Example stub_reviewer_is_initialised :
  let rt := stub_runtime (fun _ => None) (fun _ => None) no_hits in
  fst (EmpathethicCodeReviewer_init (rt := rt) (stub_world rt 0%nat)) = Returns stub_reviewer.
Proof. vm_compute. reflexivity. Qed.

(** C1 (what the code does).  Whatever the embedding provider answers,
    [__init__] returns a system whose knowledge base holds the six catalogue
    entries, each embedded by one call, and whose index holds no row: the
    two lengths differ. *)
Theorem initialize_leaves_index_empty (rt : runtime) (w : world rt) :
  exists self w',
    EmpathyRAGSystem_init w = (Returns self, w')
    /\ map content (knowledge_base self) = map entry_content knowledge_items
    /\ calls w' = (calls w ++ map CallEmbed (map entry_content knowledge_items))%list
    /\ length (knowledge_base self) = 6%nat
    /\ ntotal (index self) = 0%nat
    /\ ntotal (index self) <> length (knowledge_base self).
Proof.
  unfold EmpathyRAGSystem_init, _initialize_knowledge_base.
  match goal with |- context [initialize_loop ?s knowledge_items w] =>
    destruct (initialize_loop_spec knowledge_items s w)
      as [self [w' [Hrun [Hi [_ [Hk Hc]]]]]] end.
  exists self, w'. simpl in Hi, Hk.
  assert (Hlen : length (knowledge_base self) = 6%nat).
  { rewrite <- (length_map content), Hk. reflexivity. }
  assert (Hn : ntotal (index self) = 0%nat) by (unfold ntotal; now rewrite Hi).
  repeat split; auto. rewrite Hlen, Hn. discriminate.
Qed.

(** ** Missing input *)

Lemma process_review_missing {rt : runtime} (self : EmpathethicCodeReviewer)
  (input : input_data) (w : world rt) :
  code_snippet input = None \/ code_snippet input = Some ""
  \/ review_comments input = None \/ review_comments input = Some [] ->
  process_review self input w = (Returns missing_input_message, w).
Proof.
  unfold process_review.
  intros [H | [H | [H | H]]]; rewrite H; simpl; try reflexivity;
    destruct (code_snippet input) as [[|c s]|]; reflexivity.
Qed.

(** C3.  When the code snippet is empty or absent, or the list of comments
    is empty or absent, [process_review] returns the literal message and
    leaves the world as it found it: the log of provider calls and the state
    of the providers are unchanged, so no provider was called. *)
Theorem process_review_missing_input (rt : runtime) (self : EmpathethicCodeReviewer)
  (input : input_data) (w : world rt) :
  code_snippet input = None \/ code_snippet input = Some ""
  \/ review_comments input = None \/ review_comments input = Some [] ->
  process_review self input w
  = (Returns "Error: Missing code snippet or review comments.", w).
Proof. exact (process_review_missing self input w). Qed.

Lemma process_review_missing_input_witness :
  let rt := stub_runtime (fun _ => Some "text") (fun _ => None) no_hits in
  let input := {| code_snippet := Some "x = 1"; review_comments := Some [] |} in
  process_review stub_reviewer input (stub_world rt 0%nat)
  = (Returns "Error: Missing code snippet or review comments.", stub_world rt 0%nat).
Proof.
  intros rt input.
  apply (process_review_missing_input rt stub_reviewer input (stub_world rt 0%nat)).
  right; right; right; reflexivity.
Defined.

(** ** [POST /review] on missing input *)

(** C2 (counterexample).  A request with a snippet and no comment is
    answered with status 200 and [success = True]; the message of the core
    is the body of the report. *)
Lemma review_empty_comments_is_200 :
  let rt := stub_runtime (fun _ => Some "text") (fun _ => None) no_hits in
  let request := {| request_code_snippet := "x = 1"; request_review_comments := [] |} in
  let response := fst (generate_empathetic_review stub_reviewer request (stub_world rt 0%nat)) in
  http_status response = 200%Z
  /\ response = Http200 {| markdown_report := "Error: Missing code snippet or review comments.";
                          success := true;
                          message := "" |}.
Proof. split; reflexivity. Qed.

(** C2 (amended).  A request whose snippet is empty or whose list of
    comments is empty is answered with status 200, [success = True], an
    empty [message] and the message of the core as the report, without any
    provider call.  The handler's only other answer is the exception of
    status 500 whose detail starts with "Error generating review: ", so the
    two are told apart. *)
Theorem review_missing_input_response (rt : runtime) (reviewer : EmpathethicCodeReviewer)
  (request : CodeReviewRequest) (w : world rt) :
  (request_code_snippet request = "" \/ request_review_comments request = [] ->
   generate_empathetic_review reviewer request w
   = (Http200 {| markdown_report := "Error: Missing code snippet or review comments.";
                 success := true;
                 message := "" |}, w))
  /\ (forall status detail w',
        generate_empathetic_review reviewer request w = (HTTPException status detail, w') ->
        status = 500%Z
        /\ exists e, fst (process_review reviewer
                            {| code_snippet := Some (request_code_snippet request);
                               review_comments := Some (request_review_comments request) |} w)
                     = Raises e
                     /\ detail = "Error generating review: " ++ exn_str rt e).
Proof.
  split.
  - intros H. unfold generate_empathetic_review.
    rewrite process_review_missing; [reflexivity |].
    simpl. destruct H as [-> | ->]; auto.
  - intros status detail w'. unfold generate_empathetic_review.
    destruct (process_review reviewer _ w) as [[report | e] w1]; intros H.
    + discriminate.
    + injection H as <- <- _. split; [reflexivity | now exists e].
Qed.

Lemma review_missing_input_response_witness :
  let rt := stub_runtime (fun _ => Some "text") (fun _ => None) no_hits in
  let request := {| request_code_snippet := ""; request_review_comments := ["This is bad"] |} in
  generate_empathetic_review stub_reviewer request (stub_world rt 0%nat)
  = (Http200 {| markdown_report := "Error: Missing code snippet or review comments.";
                success := true;
                message := "" |}, stub_world rt 0%nat).
Proof.
  intros rt request.
  apply (proj1 (review_missing_input_response rt stub_reviewer request (stub_world rt 0%nat))).
  left; reflexivity.
Defined.

(** ** Failure of the generation provider *)

Lemma call_generate_fails {rt : runtime} (prompt : string) (w : world rt) :
  fst (generate_content rt prompt (pstate w)) = None ->
  exists w', call_generate prompt w = (Raises (ExternalError "generate_content"), w').
Proof.
  unfold call_generate.
  destruct (generate_content rt prompt (pstate w)) as [r s]; simpl.
  intros ->. eauto.
Qed.

Lemma severity_guidance_known (severity : string) :
  In severity ["harsh"; "moderate"; "neutral"] ->
  exists guidance, dict_get severity severity_guidance = Some (JStr guidance).
Proof.
  simpl. intros [<- | [<- | [<- | []]]]; simpl; eauto.
Qed.

(** C6.  When the call of the generation provider fails, the synthesis step
    does not raise: it returns the fixed fallback dictionary, whose four
    text fields are non-empty strings and whose [resource_links] is the
    empty list.  The severity is one of the three tags the classifier
    produces. *)
Theorem generation_failure_fallback (rt : runtime) (code comment severity : string)
  (relevant_knowledge : list KnowledgeItem) (w : world rt) :
  In severity ["harsh"; "moderate"; "neutral"] ->
  (forall prompt, fst (generate_content rt prompt (pstate w)) = None) ->
  (exists w',
     _generate_empathetic_response code comment severity relevant_knowledge w
     = (Returns (JObj fallback_response), w'))
  /\ (forall key,
        In key ["positive_rephrasing"; "the_why"; "suggested_improvement"; "code_example"] ->
        exists text, dict_get key fallback_response = Some (JStr text) /\ text <> "")
  /\ dict_get "resource_links" fallback_response = Some (JArr []).
Proof.
  intros Hsev Hfail. split; [| split].
  - destruct (severity_guidance_known severity Hsev) as [guidance Hg].
    unfold _generate_empathetic_response. rewrite Hg.
    unfold try_except, bind.
    match goal with |- context [call_generate ?p w] =>
      destruct (call_generate_fails p w (Hfail p)) as [w' ->] end.
    now exists w'.
  - simpl. intros key [<- | [<- | [<- | [<- | []]]]]; simpl;
      eexists; (split; [reflexivity | discriminate]).
  - reflexivity.
Qed.

Lemma generation_failure_fallback_witness :
  let rt := stub_runtime (fun _ => None) (fun _ => None) no_hits in
  exists w',
    _generate_empathetic_response (rt := rt) "def f(x): return x==True"
      "Boolean comparison is bad" (_determine_severity "Boolean comparison is bad")
      [] (stub_world rt 0%nat)
    = (Returns (JObj fallback_response), w').
Proof.
  intros rt.
  apply (proj1 (generation_failure_fallback rt "def f(x): return x==True"
                  "Boolean comparison is bad" (_determine_severity "Boolean comparison is bad")
                  [] (stub_world rt 0%nat)
                  (or_introl eq_refl)
                  (fun _ => eq_refl))).
Defined.

(** ** Retrieval *)

Lemma py_getitem_in_range {A : Type} (l : list A) (idx : Z) :
  (- Z.of_nat (length l) <= idx < Z.of_nat (length l))%Z ->
  exists x, py_getitem l idx = Returns x.
Proof.
  intros H. unfold py_getitem.
  set (i := if (idx <? 0)%Z then (idx + Z.of_nat (length l))%Z else idx).
  assert (Hi : (0 <= i < Z.of_nat (length l))%Z).
  { subst i. destruct (Z.ltb_spec idx 0); lia. }
  replace ((0 <=? i)%Z && (i <? Z.of_nat (length l))%Z) with true
    by (symmetry; apply andb_true_iff; split; [apply Z.leb_le | apply Z.ltb_lt]; lia).
  destruct (nth_error l (Z.to_nat i)) as [x|] eqn:E; [now exists x |].
  apply nth_error_None in E. lia.
Qed.

Lemma py_getitem_last {A : Type} (front : list A) (x : A) :
  py_getitem (front ++ [x])%list (-1) = Returns x.
Proof.
  unfold py_getitem. rewrite length_app. simpl length.
  replace (-1 <? 0)%Z with true by reflexivity.
  replace (-1 + Z.of_nat (length front + 1))%Z with (Z.of_nat (length front)) by lia.
  replace ((0 <=? Z.of_nat (length front))%Z
           && (Z.of_nat (length front) <? Z.of_nat (length front + 1))%Z) with true
    by (symmetry; apply andb_true_iff; split; [apply Z.leb_le | apply Z.ltb_lt]; lia).
  rewrite Nat2Z.id, nth_error_app2, Nat.sub_diag by lia. reflexivity.
Qed.

Lemma tenth_below_threshold {rt : runtime} : (1 # 10 < effective_threshold (rt := rt))%Q.
Proof. unfold effective_threshold. destruct (float32_comparison rt); reflexivity. Qed.

Lemma threshold_below_effective {rt : runtime} :
  (threshold <= effective_threshold (rt := rt))%Q.
Proof. unfold effective_threshold. destruct (float32_comparison rt); discriminate. Qed.

Lemma threshold_above_tenth {rt : runtime} (score : Q) :
  Qgt_bool score (effective_threshold (rt := rt)) = true -> (1 # 10 < score)%Q.
Proof.
  unfold Qgt_bool. intros H. apply negb_true_iff in H.
  apply Qlt_trans with (effective_threshold (rt := rt)); [apply tenth_below_threshold |].
  apply Qnot_le_lt. intros Hle. apply Qle_bool_iff in Hle. congruence.
Qed.

Lemma Qgt_bool_lt (bound score : Q) :
  (bound < score)%Q -> Qgt_bool score bound = true.
Proof.
  intros H. unfold Qgt_bool. apply negb_true_iff.
  destruct (Qle_bool score bound) eqn:E; [| reflexivity].
  apply Qle_bool_iff in E. exfalso. apply (Qlt_not_le _ _ H E).
Qed.

(** The accumulator of the loop is only ever extended. *)
Lemma select_hits_acc {rt : runtime} (kb : list KnowledgeItem) (hits : list hit) :
  forall acc,
    select_hits kb hits acc
    = (items <~ select_hits kb hits [] ;; Returns (acc ++ items)%list).
Proof.
  induction hits as [|[score idx] rest IH]; intros acc.
  - simpl. now rewrite app_nil_r.
  - cbn [select_hits].
    destruct ((idx <? Z.of_nat (length kb))%Z && Qgt_bool score effective_threshold);
      [| apply IH].
    destruct (py_getitem kb idx) as [item | e]; simpl; [| reflexivity].
    rewrite (IH (acc ++ [item])%list), (IH [item]).
    destruct (select_hits kb rest []) as [items | e]; simpl; [| reflexivity].
    now rewrite <- app_assoc.
Qed.

Lemma select_hits_app {rt : runtime} (kb : list KnowledgeItem) (pre post : list hit) :
  select_hits kb (pre ++ post)%list []
  = (ipre <~ select_hits kb pre [] ;;
     ipost <~ select_hits kb post [] ;;
     Returns (ipre ++ ipost)%list).
Proof.
  induction pre as [|[score idx] rest IH].
  - simpl. now destruct (select_hits kb post []).
  - cbn [app select_hits].
    destruct ((idx <? Z.of_nat (length kb))%Z && Qgt_bool score effective_threshold);
      [| apply IH].
    destruct (py_getitem kb idx) as [item | e]; simpl; [| reflexivity].
    rewrite (select_hits_acc kb (rest ++ post)%list [item]), IH.
    rewrite (select_hits_acc kb rest [item]).
    destruct (select_hits kb rest []) as [ipre | e]; simpl; [| reflexivity].
    destruct (select_hits kb post []) as [ipost | e]; simpl; reflexivity.
Qed.

(** The items returned are, in order, the items at the labels of the hits
    that pass the test. *)
Lemma select_hits_filter {rt : runtime} (kb : list KnowledgeItem) (hits : list hit) :
  forall items,
    select_hits kb hits [] = Returns items ->
    Forall2 (fun h item => py_getitem kb (snd h) = Returns item)
            (filter (selected (rt := rt) kb) hits) items.
Proof.
  induction hits as [|[score idx] rest IH]; intros items H.
  - injection H as <-. constructor.
  - cbn [select_hits] in H. cbn [filter]. unfold selected at 1. cbn [fst snd].
    destruct ((idx <? Z.of_nat (length kb))%Z && Qgt_bool score effective_threshold).
    + destruct (py_getitem kb idx) as [item | e] eqn:E; simpl in H; [| discriminate].
      rewrite select_hits_acc in H.
      destruct (select_hits kb rest []) as [tail | e]; simpl in H; [| discriminate].
      injection H as <-. constructor; [exact E | now apply IH].
    + now apply IH.
Qed.

Lemma select_hits_returns {rt : runtime} (kb : list KnowledgeItem) (hits : list hit) :
  kb <> [] ->
  Forall (fun h => (-1 <= snd h)%Z) hits ->
  exists items, select_hits kb hits [] = Returns items.
Proof.
  intros Hkb. induction 1 as [|[score idx] rest Hidx _ IH].
  - now exists [].
  - cbn [select_hits]. destruct IH as [tail Htail]. simpl in Hidx.
    destruct ((idx <? Z.of_nat (length kb))%Z && Qgt_bool score effective_threshold) eqn:E;
      [| now exists tail].
    apply andb_true_iff in E. destruct E as [Hlt _]. apply Z.ltb_lt in Hlt.
    destruct (py_getitem_in_range kb idx) as [item Hitem].
    { destruct kb; [congruence | simpl length in *; lia]. }
    rewrite Hitem. simpl. rewrite select_hits_acc, Htail. simpl. eauto.
Qed.

Lemma retrieve_run {rt : runtime} (self : EmpathyRAGSystem) (query : string) (k : nat)
  (w : world rt) :
  exists q w',
    calls w' = (calls w ++ [CallEmbed query])%list
    /\ retrieve_relevant_knowledge self query k w
       = (hits <~ faiss_search rt (index self) q k ;;
          select_hits (knowledge_base self) hits [], w').
Proof.
  destruct (get_embedding_returns self query w) as [q [w' [Hq Hc]]].
  exists q, w'. split; [exact Hc |].
  unfold retrieve_relevant_knowledge, bind at 1. rewrite Hq.
  unfold bind, lift.
  destruct (faiss_search rt (index self) q k); reflexivity.
Qed.

Lemma filter_length_le {A : Type} (f : A -> bool) (l : list A) :
  (length (filter f l) <= length l)%nat.
Proof.
  induction l as [|x l IH]; simpl; [lia |]. destruct (f x); simpl; lia.
Qed.

(** C4.  Let the index answer every query with at most [k] hits whose labels
    are [-1] or more, and let the knowledge base hold an item.  Then
    [retrieve_relevant_knowledge] returns a list of at most [k] items; these
    are, in order, the items at the labels of the hits that pass the test of
    line 112, and the score of each such hit is strictly above one tenth. *)
Theorem retrieve_bounded (rt : runtime) (self : EmpathyRAGSystem) (query : string)
  (k : nat) (w : world rt) :
  knowledge_base self <> [] ->
  (forall q, exists hits,
      faiss_search rt (index self) q k = Returns hits
      /\ (length hits <= k)%nat
      /\ Forall (fun h => (-1 <= snd h)%Z) hits) ->
  exists items w' q hits,
    retrieve_relevant_knowledge self query k w = (Returns items, w')
    /\ (length items <= k)%nat
    /\ faiss_search rt (index self) q k = Returns hits
    /\ Forall2 (fun h item => py_getitem (knowledge_base self) (snd h) = Returns item)
               (filter (selected (knowledge_base self)) hits) items
    /\ Forall (fun h => (1 # 10 < fst h)%Q) (filter (selected (knowledge_base self)) hits).
Proof.
  intros Hkb Hsearch.
  destruct (retrieve_run self query k w) as [q [w' [_ Hrun]]].
  destruct (Hsearch q) as [hits [Hhits [Hlen Hlabels]]].
  destruct (select_hits_returns (knowledge_base self) hits Hkb Hlabels) as [items Hitems].
  exists items, w', q, hits.
  rewrite Hrun, Hhits. simpl. rewrite Hitems.
  pose proof (select_hits_filter _ _ _ Hitems) as HF.
  repeat split; auto.
  - rewrite <- (Forall2_length HF).
    eapply Nat.le_trans; [apply filter_length_le | exact Hlen].
  - apply Forall_forall. intros h Hin. apply filter_In in Hin.
    destruct Hin as [_ Hsel]. unfold selected in Hsel.
    apply andb_true_iff in Hsel. now apply threshold_above_tenth.
Qed.

Lemma retrieve_bounded_witness :
  let rt := stub_runtime (fun _ => None) (fun _ => None) no_hits in
  exists items w' q hits,
    retrieve_relevant_knowledge (rt := rt) (rag_system stub_reviewer)
      "Boolean comparison is bad" 3 (stub_world rt 0%nat) = (Returns items, w')
    /\ (length items <= 3)%nat
    /\ faiss_search rt (index (rag_system stub_reviewer)) q 3 = Returns hits
    /\ Forall2 (fun h item =>
                  py_getitem (knowledge_base (rag_system stub_reviewer)) (snd h) = Returns item)
               (filter (selected (knowledge_base (rag_system stub_reviewer))) hits) items
    /\ Forall (fun h => (1 # 10 < fst h)%Q)
              (filter (selected (knowledge_base (rag_system stub_reviewer))) hits).
Proof.
  intros rt.
  apply (retrieve_bounded rt (rag_system stub_reviewer) "Boolean comparison is bad" 3
           (stub_world rt 0%nat)).
  - discriminate.
  - intros q. eexists. split; [reflexivity |]. split; [simpl; lia |].
    apply Forall_forall. intros h Hin. apply repeat_spec in Hin. subst h. simpl. lia.
Defined.

(** C10.  Let the index answer with hits whose labels are [-1] or more, and
    let the knowledge base hold an item.  Then [retrieve_relevant_knowledge]
    returns, so no [IndexError] is raised; and a hit of label [-1] whose
    score is above the number the test of line 112 compares with (the
    literal 0.1, in [float32] or in [float64] according to the NumPy in use)
    contributes the last item of the knowledge base, between the items of
    the hits before it and of the hits after it. *)
Theorem retrieve_sentinel_returns_last (rt : runtime) (self : EmpathyRAGSystem)
  (query : string) (k : nat) (w : world rt) (hits : list hit) :
  knowledge_base self <> [] ->
  (forall q, faiss_search rt (index self) q k = Returns hits) ->
  Forall (fun h => (-1 <= snd h)%Z) hits ->
  exists items w',
    retrieve_relevant_knowledge self query k w = (Returns items, w')
    /\ forall pre score post,
         hits = (pre ++ (score, (-1)%Z) :: post)%list ->
         (effective_threshold < score)%Q ->
         exists front last_item ipre ipost,
           knowledge_base self = (front ++ [last_item])%list
           /\ select_hits (knowledge_base self) pre [] = Returns ipre
           /\ select_hits (knowledge_base self) post [] = Returns ipost
           /\ items = (ipre ++ last_item :: ipost)%list.
Proof.
  intros Hkb Hsearch Hlabels.
  destruct (retrieve_run self query k w) as [q [w' [_ Hrun]]].
  destruct (select_hits_returns (knowledge_base self) hits Hkb Hlabels) as [items Hitems].
  exists items, w'. rewrite Hrun, Hsearch. simpl. split; [now rewrite Hitems |].
  intros pre score post -> Hscore.
  destruct (exists_last Hkb) as [front [last_item Hlast]].
  apply Forall_app in Hlabels. destruct Hlabels as [Hpre Hpost].
  apply Forall_cons_iff in Hpost. destruct Hpost as [_ Hpost].
  destruct (select_hits_returns _ pre Hkb Hpre) as [ipre Hipre].
  destruct (select_hits_returns _ post Hkb Hpost) as [ipost Hipost].
  exists front, last_item, ipre, ipost. repeat split; auto.
  rewrite select_hits_app, Hipre in Hitems. simpl in Hitems.
  cbn [select_hits] in Hitems.
  replace ((-1 <? Z.of_nat (length (knowledge_base self)))%Z
           && Qgt_bool score effective_threshold) with true in Hitems
    by (symmetry; apply andb_true_iff; split;
        [apply Z.ltb_lt; lia | now apply Qgt_bool_lt]).
  assert (Hg : py_getitem (knowledge_base self) (-1) = Returns last_item)
    by (rewrite Hlast; apply py_getitem_last).
  rewrite Hg in Hitems. simpl in Hitems.
  rewrite select_hits_acc, Hipost in Hitems. simpl in Hitems.
  now injection Hitems as <-.
Qed.

Lemma retrieve_sentinel_returns_last_witness :
  let rt := stub_runtime (fun _ => None) (fun _ => None) sentinel_hit in
  exists items w',
    retrieve_relevant_knowledge (rt := rt) (rag_system stub_reviewer)
      "Boolean comparison is bad" 3 (stub_world rt 0%nat) = (Returns items, w')
    /\ exists front last_item,
         knowledge_base (rag_system stub_reviewer) = (front ++ [last_item])%list
         /\ items = [last_item]
         /\ category last_item = "functional_programming".
Proof.
  intros rt.
  destruct (retrieve_sentinel_returns_last rt (rag_system stub_reviewer)
              "Boolean comparison is bad" 3 (stub_world rt 0%nat)
              [((1 # 2)%Q, (-1)%Z)])
    as [items [w' [Hrun Hlast]]].
  - discriminate.
  - intros q. reflexivity.
  - repeat constructor. simpl. lia.
  - exists items, w'. split; [exact Hrun |].
    destruct (Hlast [] (1 # 2)%Q [] eq_refl eq_refl)
      as [front [last_item [ipre [ipost [Hkb [Hpre [Hpost Hitems]]]]]]].
    exists front, last_item.
    injection Hpre as <-. injection Hpost as <-.
    split; [exact Hkb |]. split; [exact Hitems |].
    apply (f_equal (fun l => map category (rev l))) in Hkb.
    rewrite rev_app_distr in Hkb. simpl in Hkb.
    injection Hkb as Hc _. simpl. now rewrite <- Hc.
Defined.

(** ** The heuristic parser *)

Lemma fallback_step_refines (st : option string * dict)
  (ms : option section_tag * section_texts) (raw : string) :
  parser_states_agree st ms ->
  parser_states_agree (fallback_step st raw) (machine_step ms raw).
Proof.
  destruct st as [current result], ms as [active texts].
  unfold parser_states_agree. cbn [fst snd]. intros [-> ->].
  unfold fallback_step, machine_step, classify_line.
  destruct (contains "positive rephrasing" (lower (strip raw))); [split; reflexivity |].
  destruct (contains "why" (lower (strip raw))); [split; reflexivity |].
  destruct (contains "suggested improvement" (lower (strip raw))
            || contains "improvement" (lower (strip raw))); [split; reflexivity |].
  destruct (startswith "```" (strip raw)).
  - destruct active as [[]|]; split; reflexivity.
  - destruct active as [[]|]; cbn [option_map tag_key];
      destruct (nonempty (strip raw)); destruct texts; split; reflexivity.
Qed.

Lemma fallback_fold_refines (lines : list string) :
  forall st ms,
    parser_states_agree st ms ->
    parser_states_agree (fold_left fallback_step lines st) (fold_left machine_step lines ms).
Proof.
  induction lines as [|raw rest IH]; intros st ms H; simpl; [exact H |].
  apply IH. now apply fallback_step_refines.
Qed.

Lemma parse_fallback_refines (response_text : string) :
  _parse_fallback_response response_text = dict_of_texts (machine_parse response_text).
Proof.
  unfold _parse_fallback_response, machine_parse, machine_run.
  apply (fallback_fold_refines (split_nl response_text) (None, empty_result) (None, empty_texts)).
  split; reflexivity.
Qed.

Lemma machine_plain_prefix (pre : list string) (texts : section_texts) :
  Forall plain_line pre ->
  fold_left machine_step pre (None, texts) = (None, texts).
Proof.
  induction 1 as [|raw rest Hraw _ IH]; [reflexivity |].
  simpl. unfold plain_line in Hraw.
  destruct (classify_line raw); try contradiction; exact IH.
Qed.




(** ** Determinism of the pipeline *)

Section Determinism.

Context {rt : runtime}.

Lemma deterministic_ret {A : Type} (a : A) : deterministic (ret (rt := rt) a).
Proof. intros w1 w2. reflexivity. Qed.

Lemma deterministic_raise {A : Type} (e : exn) : deterministic (raise (rt := rt) (A := A) e).
Proof. intros w1 w2. reflexivity. Qed.

Lemma deterministic_lift {A : Type} (o : outcome A) : deterministic (lift (rt := rt) o).
Proof. intros w1 w2. reflexivity. Qed.

Lemma deterministic_bind {A B : Type} (m : M rt A) (k : A -> M rt B) :
  deterministic m -> (forall a, deterministic (k a)) -> deterministic (bind m k).
Proof.
  intros Hm Hk w1 w2. unfold bind. specialize (Hm w1 w2).
  destruct (m w1) as [[a1 | e1] w1'], (m w2) as [[a2 | e2] w2'];
    simpl in Hm; try discriminate; injection Hm as ->; [apply Hk | reflexivity].
Qed.

Lemma deterministic_try {A : Type} (m : M rt A) (handler : exn -> M rt A) :
  deterministic m -> (forall e, deterministic (handler e)) ->
  deterministic (try_except m handler).
Proof.
  intros Hm Hh w1 w2. unfold try_except. specialize (Hm w1 w2).
  destruct (m w1) as [[a1 | e1] w1'], (m w2) as [[a2 | e2] w2'];
    simpl in Hm; try discriminate; injection Hm as ->; [reflexivity | apply Hh].
Qed.

Hypothesis providers : deterministic_providers rt.

Lemma deterministic_call_embed (text : string) : deterministic (call_embed (rt := rt) text).
Proof.
  intros w1 w2. unfold call_embed.
  pose proof (proj1 providers text (pstate w1) (pstate w2)) as H.
  destruct (embed_content rt text (pstate w1)) as [r1 s1],
           (embed_content rt text (pstate w2)) as [r2 s2].
  simpl in H. subst r2. destruct r1; reflexivity.
Qed.

Lemma deterministic_call_generate (prompt : string) :
  deterministic (call_generate (rt := rt) prompt).
Proof.
  intros w1 w2. unfold call_generate.
  pose proof (proj2 providers prompt (pstate w1) (pstate w2)) as H.
  destruct (generate_content rt prompt (pstate w1)) as [r1 s1],
           (generate_content rt prompt (pstate w2)) as [r2 s2].
  simpl in H. subst r2. destruct r1; reflexivity.
Qed.

Lemma deterministic_get_embedding (self : EmpathyRAGSystem) (text : string) :
  deterministic (_get_embedding (rt := rt) self text).
Proof.
  apply deterministic_try; [apply deterministic_call_embed |].
  intros e. apply deterministic_ret.
Qed.

Lemma deterministic_retrieve (self : EmpathyRAGSystem) (query : string) (k : nat) :
  deterministic (retrieve_relevant_knowledge (rt := rt) self query k).
Proof.
  apply deterministic_bind; [apply deterministic_get_embedding |].
  intros q. apply deterministic_bind; [apply deterministic_lift |].
  intros hits. apply deterministic_lift.
Qed.

Lemma deterministic_response (code comment severity : string)
  (relevant_knowledge : list KnowledgeItem) :
  deterministic
    (_generate_empathetic_response (rt := rt) code comment severity relevant_knowledge).
Proof.
  unfold _generate_empathetic_response.
  destruct (dict_get severity severity_guidance); [| apply deterministic_raise].
  apply deterministic_try; [| intros e; apply deterministic_ret].
  apply deterministic_bind; [apply deterministic_call_generate |].
  intros text. apply deterministic_bind.
  - destruct (json_loads rt (strip text)); [apply deterministic_ret |].
    destruct (json_decode_error rt (strip text));
      [apply deterministic_ret | apply deterministic_raise].
  - intros result. destruct (map resource_link relevant_knowledge);
      [apply deterministic_ret | apply deterministic_lift].
Qed.

Lemma deterministic_summary (code : string) (comments : list string) (feedback : list json) :
  deterministic (_generate_holistic_summary (rt := rt) code comments feedback).
Proof.
  apply deterministic_try; [| intros e; apply deterministic_ret].
  apply deterministic_bind; [apply deterministic_call_generate |].
  intros text. apply deterministic_ret.
Qed.

Lemma deterministic_review_loop (self : EmpathethicCodeReviewer) (code : string)
  (comments : list string) :
  forall i report feedback,
    deterministic (review_loop (rt := rt) self code comments i report feedback).
Proof.
  induction comments as [|comment rest IH]; intros i report feedback.
  - apply deterministic_ret.
  - cbn [review_loop].
    apply deterministic_bind; [apply deterministic_retrieve |].
    intros knowledge. apply deterministic_bind; [apply deterministic_response |].
    intros response. apply deterministic_bind; [apply deterministic_lift |].
    intros section. apply IH.
Qed.

Lemma deterministic_process_review (self : EmpathethicCodeReviewer) (input : input_data) :
  deterministic (process_review (rt := rt) self input).
Proof.
  unfold process_review.
  match goal with |- context [if ?c then _ else _] => destruct c end;
    [apply deterministic_ret |].
  apply deterministic_bind; [apply deterministic_review_loop |].
  intros [report feedback].
  apply deterministic_bind; [apply deterministic_summary |].
  intros summary. apply deterministic_ret.
Qed.

End Determinism.

(** C9.  With providers whose answers depend on the request alone, a second
    run of [process_review] on the same input, started in the world the
    first run left behind, returns the same outcome as the first: the same
    document, byte for byte.  The order in which [list(set(...))] lists the
    links is the one of the process, the same in both runs. *)
Theorem process_review_two_runs (rt : runtime) (self : EmpathethicCodeReviewer)
  (input : input_data) (w : world rt) :
  deterministic_providers rt ->
  fst (process_review self input (snd (process_review self input w)))
  = fst (process_review self input w).
Proof.
  intros H. apply (deterministic_process_review H self input).
Qed.

Lemma process_review_two_runs_witness :
  let rt := stub_runtime (fun _ => Some sample_answer) (fun _ => None) sentinel_hit in
  let input := {| code_snippet := Some "u = 1";
                  review_comments := Some ["Variable 'u' is a bad name."; "Consider a test."] |} in
  fst (process_review stub_reviewer input
         (snd (process_review stub_reviewer input (stub_world rt 0%nat))))
  = fst (process_review stub_reviewer input (stub_world rt 0%nat)).
Proof.
  intros rt input.
  apply (process_review_two_runs rt stub_reviewer input (stub_world rt 0%nat)).
  split; intros; reflexivity.
Defined.

(** ** The report *)

Lemma string_app_assoc (a b c : string) : (a ++ b) ++ c = a ++ b ++ c.
Proof. induction a as [|x a IH]; simpl; [reflexivity | now rewrite IH]. Qed.

Lemma string_app_nil_r (a : string) : a ++ "" = a.
Proof. induction a as [|x a IH]; simpl; [reflexivity | now rewrite IH]. Qed.

Lemma concat_cons (x : string) (xs : list string) :
  String.concat "" (x :: xs) = x ++ String.concat "" xs.
Proof. destruct xs; simpl; [now rewrite string_app_nil_r | reflexivity]. Qed.

Lemma chars_nonempty (c : ascii) (t : string) : chars (String c t) <> [].
Proof.
  cbn [chars]. destruct (chars t); [discriminate |].
  destruct t as [|c' t']; [discriminate |].
  destruct (is_continuation c'); discriminate.
Qed.

Lemma py_iter_truthy (v : json) (links : list json) :
  truthy v = true -> py_iter v = Returns links -> links <> [].
Proof.
  destruct v as [| b | z | f | s | items | fields]; simpl; try discriminate.
  - destruct s as [|c t]; [discriminate |]. intros _ H. injection H as <-.
    intros Hnil. apply map_eq_nil in Hnil. now apply (chars_nonempty c t).
  - destruct items; [discriminate |]. intros _ H. now injection H as <-.
  - destruct fields; [discriminate |]. intros _ H. now injection H as <-.
Qed.


Lemma py_get_obj (d : dict) (key : string) (default : json) :
  py_get (JObj d) key default = Returns (get_or key default d).
Proof. reflexivity. Qed.

Lemma dict_get_set (key : string) (v : json) (d : dict) :
  dict_get key (dict_set key v d) = Some v.
Proof.
  induction d as [|[k v0] rest IH]; simpl.
  - now rewrite String.eqb_refl.
  - destruct (String.eqb k key) eqn:E; simpl; rewrite E; [reflexivity | exact IH].
Qed.

Lemma render_section_dict {rt : runtime} (i : nat) (comment : string) (d : dict) :
  render_section (rt := rt) i comment (JObj d)
  = (links <~ (if truthy (get_or "resource_links" JNull d)
               then py_iter (get_or "resource_links" (JArr []) d)
               else Returns []) ;;
     Returns (section_text (rt := rt) i comment d links)).
Proof.
  unfold render_section. cbv zeta.
  repeat (rewrite py_get_obj; cbn [obind]).
  assert (Hlinks : forall links,
             truthy (get_or "resource_links" JNull d) = true ->
             py_iter (get_or "resource_links" (JArr []) d) = Returns links ->
             links <> []).
  { intros links Ht Hi. unfold get_or in Ht, Hi.
    destruct (dict_get "resource_links" d) as [v|];
      [now apply (py_iter_truthy v) | discriminate]. }
  unfold section_text.
  destruct (truthy (get_or "code_example" JNull d));
    repeat (rewrite py_get_obj; cbn [obind]);
    destruct (truthy (get_or "resource_links" JNull d));
    repeat (rewrite py_get_obj; cbn [obind]);
    cbn [obind];
    try (destruct (py_iter (get_or "resource_links" (JArr []) d)) as [links | e] eqn:Ei;
         cbn [obind]; [| reflexivity];
         specialize (Hlinks links eq_refl eq_refl);
         destruct links; [congruence |]);
    now rewrite !string_app_assoc.
Qed.

Lemma render_section_non_dict {rt : runtime} (i : nat) (comment : string) (v : json) :
  is_dict v = false ->
  render_section (rt := rt) i comment v = Raises (AttributeError "get").
Proof.
  destruct v; simpl; intros H; try discriminate; reflexivity.
Qed.

Section Report.

Context {rt : runtime}.

Lemma retrieve_returns (self : EmpathyRAGSystem) (query : string) (k : nat) (w : world rt) :
  knowledge_base self <> [] ->
  (forall q, exists hits,
      faiss_search rt (index self) q k = Returns hits
      /\ Forall (fun h => (-1 <= snd h)%Z) hits) ->
  exists items w', retrieve_relevant_knowledge self query k w = (Returns items, w').
Proof.
  intros Hkb Hsearch.
  destruct (retrieve_run self query k w) as [q [w' [_ Hrun]]].
  destruct (Hsearch q) as [hits [Hhits Hlabels]].
  destruct (select_hits_returns _ hits Hkb Hlabels) as [items Hitems].
  exists items, w'. rewrite Hrun, Hhits. simpl. now rewrite Hitems.
Qed.

End Report.

(** The scenario of the specification: the generation provider is
    unavailable, and the report shows the fallback texts in the section of
    the comment and the fallback summary. *)
Example report_when_generation_unavailable :
  let rt := stub_runtime (fun _ => None) (fun _ => None) no_hits in
  fst (process_review (rt := rt) stub_reviewer
         {| code_snippet := Some "def f(x): return x==True";
            review_comments := Some ["Boolean comparison is bad"] |}
         (stub_world rt 0%nat))
  = Returns (report_title ++ code_under_review "def f(x): return x==True"
             ++ section_text (rt := rt) 1 "Boolean comparison is bad" fallback_response []
             ++ summary_section fallback_summary ++ closing_line).
Proof. vm_compute. reflexivity. Qed.

(** * Further properties of the code *)

(** ** Embeddings and start-up *)

Lemma get_embedding_run {rt : runtime} (self : EmpathyRAGSystem) (text : string)
  (w : world rt) :
  _get_embedding self text w
  = (Returns match fst (embed_content rt text (pstate w)) with
             | Some answer => answer
             | None => zeros (dimension self)
             end,
     {| pstate := snd (embed_content rt text (pstate w));
        calls := (calls w ++ [CallEmbed text])%list |}).
Proof.
  unfold _get_embedding, try_except, call_embed, ret.
  destruct (embed_content rt text (pstate w)) as [[v|] s]; reflexivity.
Qed.

(** X1.  [_get_embedding] never raises and calls the provider once.  It
    returns the answer of the provider; when the provider fails it returns
    the zero vector, which has [self.dimension] entries. *)
Theorem get_embedding_never_raises (rt : runtime) (self : EmpathyRAGSystem)
  (text : string) (w : world rt) :
  exists v w',
    _get_embedding self text w = (Returns v, w')
    /\ calls w' = (calls w ++ [CallEmbed text])%list
    /\ match fst (embed_content rt text (pstate w)) with
       | Some answer => v = answer
       | None => v = zeros (dimension self) /\ length v = dimension self
       end.
Proof.
  rewrite get_embedding_run. eexists _, _. split; [reflexivity |].
  split; [reflexivity |].
  destruct (fst (embed_content rt text (pstate w))); [reflexivity |].
  split; [reflexivity | apply repeat_length].
Qed.

Lemma reviewer_init_run {rt : runtime} (w : world rt) :
  exists rag w',
    EmpathethicCodeReviewer_init w = (Returns {| rag_system := rag |}, w')
    /\ EmpathyRAGSystem_init w = (Returns rag, w')
    /\ length (knowledge_base rag) = 6%nat
    /\ calls w' = (calls w ++ map CallEmbed (map entry_content knowledge_items))%list.
Proof.
  unfold EmpathethicCodeReviewer_init, bind.
  unfold EmpathyRAGSystem_init, _initialize_knowledge_base.
  match goal with |- context [initialize_loop ?s knowledge_items w] =>
    destruct (initialize_loop_spec knowledge_items s w)
      as [rag [w' [Hrun [_ [_ [Hk Hc]]]]]] end.
  exists rag, w'. rewrite Hrun. repeat split; auto.
  rewrite <- (length_map content), Hk. reflexivity.
Qed.

(** X2.  The start-up hook raises its [RuntimeError] when the key is not set
    or is empty, and then calls no provider.  With a key it always sets the
    reviewer, whatever the embedding provider answers: the knowledge base
    holds six items and the provider was called once per catalogue entry, in
    the order of the catalogue. *)
Theorem startup_event_guard (rt : runtime) (API_KEY : option string) (w : world rt) :
  match API_KEY with
  | None | Some EmptyString =>
      startup_event API_KEY w
      = (StartupRuntimeError "GEMINI_API_KEY environment variable not set", w)
  | Some (String _ _) =>
      exists reviewer w',
        startup_event API_KEY w = (AppStarted reviewer, w')
        /\ length (knowledge_base (rag_system reviewer)) = 6%nat
        /\ calls w' = (calls w ++ map CallEmbed (map entry_content knowledge_items))%list
  end.
Proof.
  destruct API_KEY as [[|c key]|]; try reflexivity.
  destruct (reviewer_init_run w) as [rag [w' [Hrun [_ [Hlen Hc]]]]].
  exists {| rag_system := rag |}, w'. unfold startup_event. rewrite Hrun. auto.
Qed.

Lemma initialize_loop_zero {rt : runtime} :
  (forall text s, fst (embed_content rt text s) = None) ->
  forall (items : list catalog_entry) (self : EmpathyRAGSystem) (w : world rt),
  exists w',
    initialize_loop self items w
    = (Returns {| dimension := dimension self;
                  index := index self;
                  knowledge_base :=
                    (knowledge_base self ++ map (zero_item (dimension self)) items)%list |},
       w').
Proof.
  intros Hfail. induction items as [|item rest IH]; intros self w.
  - exists w. simpl. rewrite app_nil_r. now destruct self.
  - cbn [initialize_loop]. unfold bind at 1.
    rewrite get_embedding_run, Hfail.
    match goal with |- context [initialize_loop ?s rest ?w1] =>
      destruct (IH s w1) as [w' ->] end.
    exists w'. cbn [dimension index knowledge_base map].
    now rewrite <- app_assoc.
Qed.

(** X3.  When the embedding provider fails on every call, start-up still
    succeeds: every item of the knowledge base carries the zero vector of
    768 entries, and the index has dimension 768 and no row. *)
Theorem startup_with_failing_embeddings (rt : runtime) (key : string) (w : world rt) :
  key <> "" ->
  (forall text s, fst (embed_content rt text s) = None) ->
  exists w',
    startup_event (Some key) w
    = (AppStarted
         {| rag_system :=
              {| dimension := 768;
                 index := IndexFlatIP 768;
                 knowledge_base := map (zero_item 768) knowledge_items |} |}, w').
Proof.
  intros Hkey Hfail. destruct key as [|c key]; [congruence |].
  unfold startup_event, EmpathethicCodeReviewer_init, bind.
  unfold EmpathyRAGSystem_init, _initialize_knowledge_base.
  match goal with |- context [initialize_loop ?s knowledge_items w] =>
    destruct (initialize_loop_zero Hfail knowledge_items s w) as [w' ->] end.
  now exists w'.
Qed.

Lemma startup_with_failing_embeddings_witness :
  let rt := stub_runtime (fun _ => None) (fun _ => None) no_hits in
  exists w',
    startup_event (rt := rt) (Some "secret") (stub_world rt 0%nat)
    = (AppStarted
         {| rag_system :=
              {| dimension := 768;
                 index := IndexFlatIP 768;
                 knowledge_base := map (zero_item 768) knowledge_items |} |}, w').
Proof.
  intros rt.
  apply (startup_with_failing_embeddings rt "secret" (stub_world rt 0%nat)).
  - discriminate.
  - intros text s. reflexivity.
Defined.

(** ** Retrieval *)

Lemma py_getitem_In {A : Type} (l : list A) (idx : Z) (x : A) :
  py_getitem l idx = Returns x -> In x l.
Proof.
  unfold py_getitem.
  destruct ((0 <=? _)%Z && _); [| discriminate].
  destruct (nth_error l _) as [y|] eqn:E; [| discriminate].
  intros H. injection H as <-. now apply nth_error_In in E.
Qed.

Lemma select_hits_members {rt : runtime} (kb : list KnowledgeItem) (hits : list hit)
  (items : list KnowledgeItem) :
  select_hits kb hits [] = Returns items -> Forall (fun item => In item kb) items.
Proof.
  intros H. apply select_hits_filter in H.
  induction H as [|h item hs items Hitem _ IH]; constructor; auto.
  now apply py_getitem_In in Hitem.
Qed.

(** X4.  Whatever the index answers, every item that
    [retrieve_relevant_knowledge] returns is an item of the knowledge
    base. *)
Theorem retrieve_returns_members (rt : runtime) (self : EmpathyRAGSystem)
  (query : string) (k : nat) (w : world rt) (items : list KnowledgeItem) :
  fst (retrieve_relevant_knowledge self query k w) = Returns items ->
  Forall (fun item => In item (knowledge_base self)) items.
Proof.
  destruct (retrieve_run self query k w) as [q [w' [_ ->]]]. cbn [fst].
  destruct (faiss_search rt (index self) q k) as [hits | e]; [| discriminate].
  apply select_hits_members.
Qed.

Lemma retrieve_returns_members_witness :
  let rt := stub_runtime (fun _ => None) (fun _ => None) sentinel_hit in
  Forall (fun item => In item (knowledge_base (rag_system stub_reviewer)))
         [zero_item 768
            {| entry_content := "Filter operations in functional programming can be combined with map operations for cleaner, more readable code.";
               entry_category := "functional_programming";
               entry_resource_link := "https://docs.python.org/3/howto/functional.html" |}].
Proof.
  intros rt.
  apply (retrieve_returns_members rt (rag_system stub_reviewer) "Is this bad?" 3
           (stub_world rt 0%nat)).
  vm_compute. reflexivity.
Defined.

Lemma select_hits_below_threshold {rt : runtime} (kb : list KnowledgeItem) (hits : list hit) :
  Forall (fun h => (fst h <= threshold)%Q) hits ->
  forall acc, select_hits kb hits acc = Returns acc.
Proof.
  induction 1 as [|[score idx] rest Hscore _ IH]; intros acc; [reflexivity |].
  cbn [select_hits]. simpl in Hscore.
  assert (Hle : (score <= effective_threshold (rt := rt))%Q)
    by (eapply Qle_trans; [exact Hscore | apply threshold_below_effective]).
  apply Qle_bool_iff in Hle.
  unfold Qgt_bool. rewrite Hle, andb_false_r. apply IH.
Qed.

Lemma retrieve_below_threshold {rt : runtime} (self : EmpathyRAGSystem)
  (query : string) (k : nat) (w : world rt) :
  (forall q, exists hits,
      faiss_search rt (index self) q k = Returns hits
      /\ Forall (fun h => (fst h <= threshold)%Q) hits) ->
  exists w',
    retrieve_relevant_knowledge self query k w = (Returns [], w')
    /\ calls w' = (calls w ++ [CallEmbed query])%list.
Proof.
  intros Hsearch.
  destruct (retrieve_run self query k w) as [q [w' [Hc ->]]].
  destruct (Hsearch q) as [hits [-> Hscores]].
  exists w'. simpl. now rewrite select_hits_below_threshold.
Qed.

(** X5.  When no hit of the index scores above the threshold, as when a
    zero query vector scores zero against every row,
    [retrieve_relevant_knowledge] returns the empty list; the labels are not
    looked at, so it does not raise even when they are out of range or the
    knowledge base is empty. *)
Theorem retrieve_nothing_relevant (rt : runtime) (self : EmpathyRAGSystem)
  (query : string) (k : nat) (w : world rt) :
  (forall q, exists hits,
      faiss_search rt (index self) q k = Returns hits
      /\ Forall (fun h => (fst h <= threshold)%Q) hits) ->
  exists w', retrieve_relevant_knowledge self query k w = (Returns [], w').
Proof.
  intros Hsearch.
  destruct (retrieve_below_threshold self query k w Hsearch) as [w' [Hrun _]].
  now exists w'.
Qed.

Lemma retrieve_nothing_relevant_witness :
  let rt := stub_runtime (fun _ => None) (fun _ => None) no_hits in
  exists w',
    retrieve_relevant_knowledge (rt := rt) (rag_system stub_reviewer) "Is this bad?" 3
      (stub_world rt 0%nat) = (Returns [], w').
Proof.
  intros rt.
  apply (retrieve_nothing_relevant rt (rag_system stub_reviewer) "Is this bad?" 3
           (stub_world rt 0%nat)).
  intros q. eexists. split; [reflexivity |].
  apply Forall_forall. intros h Hin. apply repeat_spec in Hin. subst h.
  unfold Qle. simpl. lia.
Defined.

(** X6.  A failure of [index.search] is not absorbed: on a request with a
    snippet and a first comment, [POST /review] answers with the exception
    of status 500 that carries the text of that failure, after one
    embedding call and no generation call. *)
Theorem search_failure_is_500 (rt : runtime) (reviewer : EmpathethicCodeReviewer)
  (request : CodeReviewRequest) (w : world rt) (e : exn) (first : string)
  (rest : list string) :
  request_code_snippet request <> "" ->
  request_review_comments request = first :: rest ->
  (forall q, faiss_search rt (index (rag_system reviewer)) q 3 = Raises e) ->
  exists w',
    generate_empathetic_review reviewer request w
    = (HTTPException 500 ("Error generating review: " ++ exn_str rt e), w')
    /\ calls w' = (calls w ++ [CallEmbed first])%list.
Proof.
  intros Hcode Hcomments Hsearch.
  unfold generate_empathetic_review, process_review.
  cbn [code_snippet review_comments]. rewrite Hcomments.
  destruct (request_code_snippet request) as [|c code]; [congruence |].
  cbn [nonempty negb orb review_loop]. unfold bind at 1. unfold bind at 1.
  destruct (retrieve_run (rag_system reviewer) first 3 w) as [q [w' [Hc ->]]].
  rewrite Hsearch. cbn [obind]. now exists w'.
Qed.

Lemma search_failure_is_500_witness :
  let rt := stub_runtime (fun _ => Some "text") (fun _ => None) failing_search in
  exists w',
    generate_empathetic_review (rt := rt) stub_reviewer
      {| request_code_snippet := "u = 1"; request_review_comments := ["This is bad"] |}
      (stub_world rt 0%nat)
    = (HTTPException 500 ("Error generating review: "
                          ++ exn_str rt (ExternalError "AssertionError")), w')
    /\ calls w' = (calls (stub_world rt 0%nat) ++ [CallEmbed "This is bad"])%list.
Proof.
  intros rt.
  apply (search_failure_is_500 rt stub_reviewer
           {| request_code_snippet := "u = 1"; request_review_comments := ["This is bad"] |}
           (stub_world rt 0%nat) (ExternalError "AssertionError") "This is bad" []).
  - discriminate.
  - reflexivity.
  - intros q. reflexivity.
Defined.

(** ** Severity *)

Lemma occurs_ci_extend (w pre comment post : string) :
  occurs_ci w comment -> occurs_ci w (pre ++ comment ++ post).
Proof.
  intros [p [u [q [-> Hu]]]].
  exists (pre ++ p), u, (q ++ post). split; [| exact Hu].
  now rewrite !string_app_assoc.
Qed.

Lemma existsb_occurs_extend (ws : list string) (pre comment post : string) :
  existsb (fun w => contains w (lower comment)) ws = true ->
  existsb (fun w => contains w (lower (pre ++ comment ++ post))) ws = true.
Proof.
  rewrite !existsb_occurs. intros H. apply Exists_exists in H.
  destruct H as [w [Hin Hw]]. apply Exists_exists. exists w.
  split; [exact Hin | now apply occurs_ci_extend].
Qed.

(** X7.  Text added before or after a comment never lowers its severity:
    a harsh comment stays harsh, a moderate comment stays moderate or
    becomes harsh. *)
Theorem severity_monotone (pre comment post : string) :
  (severity_rank (_determine_severity comment)
   <= severity_rank (_determine_severity (pre ++ comment ++ post)))%nat.
Proof.
  unfold _determine_severity.
  pose proof (existsb_occurs_extend harsh_indicators pre comment post) as Hh.
  pose proof (existsb_occurs_extend moderate_indicators pre comment post) as Hm.
  destruct (existsb _ harsh_indicators); [rewrite (Hh eq_refl); apply le_n |].
  destruct (existsb _ moderate_indicators).
  - rewrite (Hm eq_refl).
    destruct (existsb _ harsh_indicators); cbn; lia.
  - cbn. lia.
Qed.

(** ** The synthesis step *)

Lemma response_run {rt : runtime} (code comment severity guidance : string)
  (relevant_knowledge : list KnowledgeItem) (w : world rt) :
  dict_get severity severity_guidance = Some (JStr guidance) ->
  let prompt := response_prompt code comment guidance (knowledge_context relevant_knowledge) in
  _generate_empathetic_response code comment severity relevant_knowledge w
  = (Returns match fst (generate_content rt prompt (pstate w)) with
             | None => JObj fallback_response
             | Some text =>
                 match decoded_result rt text with
                 | Raises _ => JObj fallback_response
                 | Returns result =>
                     match relevant_knowledge with
                     | [] => result
                     | _ :: _ =>
                         match py_setitem result "resource_links"
                                 (links_value rt relevant_knowledge) with
                         | Returns result' => result'
                         | Raises _ => JObj fallback_response
                         end
                     end
                 end
             end,
     {| pstate := snd (generate_content rt prompt (pstate w));
        calls := (calls w ++ [CallGenerate prompt])%list |}).
Proof.
  intros Hg prompt. unfold _generate_empathetic_response. rewrite Hg.
  cbn [format_value]. fold (knowledge_context relevant_knowledge). fold prompt.
  unfold try_except, bind, call_generate.
  destruct (generate_content rt prompt (pstate w)) as [[text|] s]; [| reflexivity].
  cbn [fst snd]. unfold decoded_result.
  destruct (json_loads rt (strip text)) as [decoded|];
    [| destruct (json_decode_error rt (strip text)); [| reflexivity]];
    unfold ret; (destruct relevant_knowledge as [|item items]; [reflexivity |]);
    cbn [map]; unfold lift, links_value; cbn [map];
    match goal with |- context [py_setitem ?r ?k ?x] => destruct (py_setitem r k x) end;
    reflexivity.
Qed.

(** X8.  With one of the three severities of the classifier, the synthesis
    step never raises, whatever the provider and [json.loads] answer, and it
    calls the generation provider once, with the prompt built from the
    snippet, the comment, the guidance of the severity and the retrieved
    items. *)
Theorem synthesis_never_raises (rt : runtime) (code comment severity : string)
  (relevant_knowledge : list KnowledgeItem) (w : world rt) :
  In severity ["harsh"; "moderate"; "neutral"] ->
  exists response w' guidance,
    _generate_empathetic_response code comment severity relevant_knowledge w
    = (Returns response, w')
    /\ dict_get severity severity_guidance = Some (JStr guidance)
    /\ calls w'
       = (calls w ++ [CallGenerate (response_prompt code comment guidance
                                      (knowledge_context relevant_knowledge))])%list.
Proof.
  intros Hsev. destruct (severity_guidance_known severity Hsev) as [guidance Hg].
  rewrite (response_run code comment severity guidance relevant_knowledge w Hg).
  eexists _, _, guidance. repeat split. exact Hg.
Qed.

Lemma synthesis_never_raises_witness :
  let rt := stub_runtime (fun _ => Some "[1, 2]") (fun _ => Some (JArr [JInt 1; JInt 2]))
              no_hits in
  exists response w' guidance,
    _generate_empathetic_response (rt := rt) "u = 1" "This is bad" "harsh"
      (knowledge_base (rag_system stub_reviewer)) (stub_world rt 0%nat)
    = (Returns response, w')
    /\ dict_get "harsh" severity_guidance = Some (JStr guidance)
    /\ calls w'
       = (calls (stub_world rt 0%nat)
          ++ [CallGenerate
                (response_prompt "u = 1" "This is bad" guidance
                   (knowledge_context (knowledge_base (rag_system stub_reviewer))))])%list.
Proof.
  intros rt.
  apply (synthesis_never_raises rt "u = 1" "This is bad" "harsh"
           (knowledge_base (rag_system stub_reviewer)) (stub_world rt 0%nat)).
  simpl. auto.
Defined.

Lemma severity_guidance_unknown (severity : string) :
  ~ In severity ["harsh"; "moderate"; "neutral"] ->
  dict_get severity severity_guidance = None.
Proof.
  intros H. cbn [dict_get severity_guidance].
  destruct (String.eqb_spec "harsh" severity) as [<- | _]; [exfalso; apply H; simpl; auto |].
  destruct (String.eqb_spec "moderate" severity) as [<- | _]; [exfalso; apply H; simpl; auto |].
  destruct (String.eqb_spec "neutral" severity) as [<- | _]; [exfalso; apply H; simpl; auto |].
  reflexivity.
Qed.

(** X9.  With a severity that is none of the three tags, the synthesis step
    raises [KeyError] on that severity while it builds the prompt: the
    handler of the [try] does not apply and no provider is called. *)
Theorem unknown_severity_raises (rt : runtime) (code comment severity : string)
  (relevant_knowledge : list KnowledgeItem) (w : world rt) :
  ~ In severity ["harsh"; "moderate"; "neutral"] ->
  _generate_empathetic_response code comment severity relevant_knowledge w
  = (Raises (KeyError severity), w).
Proof.
  intros H. unfold _generate_empathetic_response.
  now rewrite (severity_guidance_unknown severity H).
Qed.

Lemma unknown_severity_raises_witness :
  let rt := stub_runtime (fun _ => Some "text") (fun _ => None) no_hits in
  _generate_empathetic_response (rt := rt) "u = 1" "This is bad" "Harsh" []
    (stub_world rt 0%nat)
  = (Raises (KeyError "Harsh"), stub_world rt 0%nat).
Proof.
  intros rt.
  apply (unknown_severity_raises rt "u = 1" "This is bad" "Harsh" [] (stub_world rt 0%nat)).
  simpl. intros [H | [H | [H | []]]]; discriminate.
Defined.

Lemma dict_get_set_other (key key' : string) (v : json) (d : dict) :
  key' <> key -> dict_get key' (dict_set key v d) = dict_get key' d.
Proof.
  intros Hne. induction d as [|[k v0] rest IH]; simpl.
  - destruct (String.eqb_spec key key'); [congruence | reflexivity].
  - destruct (String.eqb_spec k key) as [-> | Hk]; simpl.
    + destruct (String.eqb_spec key key'); [congruence | reflexivity].
    + destruct (String.eqb k key'); [reflexivity | exact IH].
Qed.

(** X10.  When the provider answers with a JSON object, the response is that
    object; when items were retrieved, its [resource_links] is replaced by
    the deduplicated links of the retrieved items, whatever links the
    provider wrote there, and every other key keeps its value. *)
Theorem retrieved_links_override (rt : runtime) (code comment severity text : string)
  (relevant_knowledge : list KnowledgeItem) (w : world rt) (d : dict) :
  In severity ["harsh"; "moderate"; "neutral"] ->
  (forall prompt, fst (generate_content rt prompt (pstate w)) = Some text) ->
  json_loads rt (strip text) = Some (JObj d) ->
  exists d' w',
    _generate_empathetic_response code comment severity relevant_knowledge w
    = (Returns (JObj d'), w')
    /\ (forall key, key <> "resource_links" -> dict_get key d' = dict_get key d)
    /\ dict_get "resource_links" d'
       = match relevant_knowledge with
         | [] => dict_get "resource_links" d
         | _ :: _ =>
             Some (JArr (map JStr (list_of_set rt (map resource_link relevant_knowledge))))
         end.
Proof.
  intros Hsev Hgen Hjson. destruct (severity_guidance_known severity Hsev) as [guidance Hg].
  rewrite (response_run code comment severity guidance relevant_knowledge w Hg).
  cbv zeta. rewrite Hgen. unfold decoded_result. rewrite Hjson.
  destruct relevant_knowledge as [|item items].
  - exists d. eexists. repeat split.
  - cbn [py_setitem]. eexists _, _. split; [reflexivity |]. split.
    + intros key Hkey. now apply dict_get_set_other.
    + apply dict_get_set.
Qed.

Lemma retrieved_links_override_witness :
  let d := [("the_why", JStr "Names matter."); ("resource_links", JStr "https://example.org")] in
  let rt := stub_runtime (fun _ => Some "{...}") (fun _ => Some (JObj d)) no_hits in
  exists d' w',
    _generate_empathetic_response (rt := rt) "u = 1" "This is bad" "harsh"
      (knowledge_base (rag_system stub_reviewer)) (stub_world rt 0%nat)
    = (Returns (JObj d'), w')
    /\ (forall key, key <> "resource_links" -> dict_get key d' = dict_get key d)
    /\ dict_get "resource_links" d'
       = Some (JArr (map JStr (list_of_set rt
                 (map resource_link (knowledge_base (rag_system stub_reviewer)))))).
Proof.
  intros d rt.
  apply (retrieved_links_override rt "u = 1" "This is bad" "harsh" "{...}"
           (knowledge_base (rag_system stub_reviewer)) (stub_world rt 0%nat) d).
  - simpl. auto.
  - intros prompt. reflexivity.
  - reflexivity.
Defined.

Lemma py_setitem_non_dict (v : json) (key : string) (x : json) :
  is_dict v = false -> py_setitem v key x = Raises (TypeError "item assignment").
Proof. destruct v; simpl; intros H; try reflexivity; discriminate. Qed.

(** X11.  When the provider answers with JSON that is not an object and
    items were retrieved, the assignment of the links fails and is caught:
    the response is the fixed fallback dictionary. *)
Theorem non_dict_answer_falls_back (rt : runtime) (code comment severity text : string)
  (relevant_knowledge : list KnowledgeItem) (w : world rt) (v : json) :
  In severity ["harsh"; "moderate"; "neutral"] ->
  (forall prompt, fst (generate_content rt prompt (pstate w)) = Some text) ->
  json_loads rt (strip text) = Some v ->
  is_dict v = false ->
  relevant_knowledge <> [] ->
  exists w',
    _generate_empathetic_response code comment severity relevant_knowledge w
    = (Returns (JObj fallback_response), w').
Proof.
  intros Hsev Hgen Hjson Hv Hk.
  destruct (severity_guidance_known severity Hsev) as [guidance Hg].
  rewrite (response_run code comment severity guidance relevant_knowledge w Hg).
  cbv zeta. rewrite Hgen. unfold decoded_result. rewrite Hjson.
  destruct relevant_knowledge as [|item items]; [congruence |].
  rewrite (py_setitem_non_dict v _ _ Hv). eauto.
Qed.

Lemma non_dict_answer_falls_back_witness :
  let rt := stub_runtime (fun _ => Some "[1, 2]") (fun _ => Some (JArr [JInt 1; JInt 2]))
              no_hits in
  exists w',
    _generate_empathetic_response (rt := rt) "u = 1" "This is bad" "harsh"
      (knowledge_base (rag_system stub_reviewer)) (stub_world rt 0%nat)
    = (Returns (JObj fallback_response), w').
Proof.
  intros rt.
  apply (non_dict_answer_falls_back rt "u = 1" "This is bad" "harsh" "[1, 2]"
           (knowledge_base (rag_system stub_reviewer)) (stub_world rt 0%nat)
           (JArr [JInt 1; JInt 2])).
  - simpl. auto.
  - intros prompt. reflexivity.
  - reflexivity.
  - reflexivity.
  - discriminate.
Defined.

(** ** Rendering *)

(** X12.  The section of a response depends on the values of five keys only:
    two dictionaries that agree on them, whatever else they hold and in
    whatever order, are rendered alike, with the same section or the same
    exception. *)
Theorem render_reads_five_keys (rt : runtime) (i : nat) (comment : string) (d1 d2 : dict) :
  (forall key, In key rendered_keys -> dict_get key d1 = dict_get key d2) ->
  render_section (rt := rt) i comment (JObj d1) = render_section (rt := rt) i comment (JObj d2).
Proof.
  intros H. rewrite !render_section_dict. unfold section_text, get_or.
  rewrite (H "positive_rephrasing"), (H "the_why"), (H "suggested_improvement"),
    (H "code_example"), (H "resource_links");
    solve [reflexivity | unfold rendered_keys; simpl; auto 10].
Qed.

Lemma render_reads_five_keys_witness :
  let rt := stub_runtime (fun _ => None) (fun _ => None) no_hits in
  render_section (rt := rt) 1 "This is bad" (JObj fallback_response)
  = render_section (rt := rt) 1 "This is bad"
      (JObj (("confidence", JInt 3) :: rev fallback_response)).
Proof.
  intros rt.
  apply (render_reads_five_keys rt 1 "This is bad" fallback_response
           (("confidence", JInt 3) :: rev fallback_response)).
  intros key Hin. unfold rendered_keys in Hin. simpl in Hin.
  destruct Hin as [<- | [<- | [<- | [<- | [<- | []]]]]]; reflexivity.
Defined.

(** X13.  When the provider answers with JSON that is not an object and no
    item was retrieved, the value goes through the synthesis step as it is
    and [process_review] raises on its first use: [POST /review] answers
    with the exception of status 500 for the [AttributeError]. *)
Theorem non_dict_answer_is_500 (rt : runtime) (reviewer : EmpathethicCodeReviewer)
  (request : CodeReviewRequest) (w : world rt) (text : string) (v : json)
  (first : string) (rest : list string) :
  request_code_snippet request <> "" ->
  request_review_comments request = first :: rest ->
  (forall q, exists hits,
      faiss_search rt (index (rag_system reviewer)) q 3 = Returns hits
      /\ Forall (fun h => (fst h <= threshold)%Q) hits) ->
  (forall prompt s, fst (generate_content rt prompt s) = Some text) ->
  json_loads rt (strip text) = Some v ->
  is_dict v = false ->
  exists w',
    generate_empathetic_review reviewer request w
    = (HTTPException 500 ("Error generating review: " ++ exn_str rt (AttributeError "get")),
       w').
Proof.
  intros Hcode Hcomments Hsearch Hgen Hjson Hv.
  unfold generate_empathetic_review, process_review.
  cbn [code_snippet review_comments]. rewrite Hcomments.
  destruct (request_code_snippet request) as [|c code]; [congruence |].
  cbn [nonempty negb orb review_loop]. unfold bind at 1. unfold bind at 1.
  destruct (retrieve_below_threshold (rag_system reviewer) first 3 w Hsearch)
    as [w1 [-> _]].
  unfold bind at 1.
  destruct (severity_guidance_known _ (determine_severity_range first)) as [guidance Hg].
  rewrite (response_run _ first _ guidance [] w1 Hg). cbv zeta. rewrite Hgen.
  unfold bind at 1, lift. unfold decoded_result. rewrite Hjson.
  rewrite (render_section_non_dict 1 first v Hv). eauto.
Qed.

Lemma non_dict_answer_is_500_witness :
  let rt := stub_runtime (fun _ => Some "[1, 2]") (fun _ => Some (JArr [JInt 1; JInt 2]))
              no_hits in
  exists w',
    generate_empathetic_review (rt := rt) stub_reviewer
      {| request_code_snippet := "u = 1"; request_review_comments := ["This is bad"] |}
      (stub_world rt 0%nat)
    = (HTTPException 500 ("Error generating review: " ++ exn_str rt (AttributeError "get")),
       w').
Proof.
  intros rt.
  apply (non_dict_answer_is_500 rt stub_reviewer
           {| request_code_snippet := "u = 1"; request_review_comments := ["This is bad"] |}
           (stub_world rt 0%nat) "[1, 2]" (JArr [JInt 1; JInt 2]) "This is bad" []).
  - discriminate.
  - reflexivity.
  - intros q. eexists. split; [reflexivity |].
    apply Forall_forall. intros h Hin. apply repeat_spec in Hin. subst h.
    unfold Qle. simpl. lia.
  - intros prompt s. reflexivity.
  - reflexivity.
  - reflexivity.
Defined.

(** ** The heuristic parser: what it keeps and what it loses *)

Lemma has_marker_plain (raw : string) : has_marker raw = false -> plain_line raw.
Proof.
  unfold has_marker, plain_line, classify_line. intros H.
  apply orb_false_elim in H. destruct H as [H Hfence].
  apply orb_false_elim in H. destruct H as [H Himp].
  apply orb_false_elim in H. destruct H as [H Hsug].
  apply orb_false_elim in H. destruct H as [Hpos Hwhy].
  rewrite Hpos, Hwhy, Hsug, Himp, Hfence. simpl.
  now destruct (nonempty (strip raw)).
Qed.

(** X14.  An answer without any header keyword and without fence is lost
    altogether: when no line of the text, once stripped of the white space
    around it, contains a header keyword in its lowered text or starts with
    the fence, the parser returns the four empty texts and the empty list
    of links. *)
Theorem parser_without_markers_is_empty (response_text : string) :
  (forall line, In line (split_nl response_text) -> has_marker line = false) ->
  _parse_fallback_response response_text = empty_result.
Proof.
  intros H. rewrite parse_fallback_refines. unfold machine_parse, machine_run.
  rewrite machine_plain_prefix; [reflexivity |].
  apply Forall_forall. intros line Hin. now apply has_marker_plain, H.
Qed.

Lemma parser_without_markers_is_empty_witness :
  _parse_fallback_response ("Looks good to me." ++ nl ++ "Rename u to user.") = empty_result.
Proof.
  apply (parser_without_markers_is_empty ("Looks good to me." ++ nl ++ "Rename u to user.")).
  intros line Hin. simpl in Hin. destruct Hin as [<- | [<- | []]]; reflexivity.
Defined.

Lemma contains_char (c : ascii) (s : string) :
  contains (String c EmptyString) s = has_char c s.
Proof.
  induction s as [|x t IH]; [reflexivity |].
  cbn [contains has_char startswith]. rewrite IH.
  now destruct t; rewrite andb_true_r.
Qed.

Lemma has_char_app (c : ascii) (a b : string) :
  has_char c (a ++ b) = has_char c a || has_char c b.
Proof.
  induction a as [|x a IH]; simpl; [reflexivity |]. now rewrite IH, orb_assoc.
Qed.

Lemma has_char_lstrip_bounded (c : ascii) (n : nat) :
  forall s, (String.length s <= n)%nat ->
            has_char c s = false -> has_char c (lstrip s) = false.
Proof.
  induction n as [|n IH]; intros s Hlen H.
  - destruct s; [reflexivity | simpl in Hlen; lia].
  - destruct s as [|x t]; [reflexivity |]. cbn [lstrip].
    simpl in Hlen. pose proof H as Hs.
    cbn [has_char] in H. apply orb_false_elim in H. destruct H as [_ Ht].
    destruct (is_space x); [apply IH; [lia | exact Ht] |].
    destruct t as [|y t2]; [exact Hs |].
    simpl in Hlen. cbn [has_char] in Ht. apply orb_false_elim in Ht.
    destruct Ht as [_ Ht2].
    destruct (is_space2 x y); [apply IH; [lia | exact Ht2] |].
    destruct t2 as [|z t3]; [exact Hs |].
    simpl in Hlen. cbn [has_char] in Ht2. apply orb_false_elim in Ht2.
    destruct Ht2 as [_ Ht3].
    destruct (is_space3 x y z); [apply IH; [lia | exact Ht3] | exact Hs].
Qed.

Lemma has_char_lstrip (c : ascii) (s : string) :
  has_char c s = false -> has_char c (lstrip s) = false.
Proof. apply (has_char_lstrip_bounded c (String.length s)). apply le_n. Qed.

Lemma has_char_rstrip (c : ascii) (s : string) :
  has_char c s = false -> has_char c (rstrip s) = false.
Proof.
  induction s as [|x t IH]; [reflexivity |]. intros H. cbn [rstrip]. cbv zeta.
  cbn [has_char] in H. apply orb_false_elim in H. destruct H as [Hx Ht].
  destruct (is_space_char (String x (rstrip t))); [reflexivity |].
  cbn [has_char]. now rewrite Hx, (IH Ht).
Qed.

Lemma split_nl_no_newline (s : string) :
  Forall (fun line => has_char (ascii_of_nat 10) line = false) (split_nl s).
Proof.
  induction s as [|x t IH]; [repeat constructor |]. cbn [split_nl].
  destruct (Ascii.eqb x (ascii_of_nat 10)) eqn:E; [constructor; [reflexivity | exact IH] |].
  assert (Hx : Ascii.eqb (ascii_of_nat 10) x = false) by (now rewrite Ascii.eqb_sym).
  destruct (split_nl t) as [|line rest].
  - repeat constructor. cbn [has_char]. now rewrite Hx.
  - inversion IH as [|? ? Hline Hrest]; subst.
    constructor; [| exact Hrest]. cbn [has_char]. now rewrite Hx.
Qed.

Lemma flat_append (t line : string) :
  flat t -> has_char (ascii_of_nat 10) line = false -> flat (t ++ line ++ " ").
Proof.
  intros [Ht _] Hline. split.
  - now rewrite !has_char_app, Ht, Hline.
  - right. exists (t ++ line). now rewrite string_app_assoc.
Qed.

Lemma machine_step_flat (st : option section_tag * section_texts) (raw : string) :
  has_char (ascii_of_nat 10) raw = false ->
  texts_flat (snd st) -> texts_flat (snd (machine_step st raw)).
Proof.
  intros Hraw Hst. destruct st as [active texts]. unfold machine_step, classify_line.
  assert (Hline : has_char (ascii_of_nat 10) (strip raw) = false)
    by (apply has_char_rstrip, has_char_lstrip, Hraw).
  destruct (contains "positive rephrasing" (lower (strip raw))); [exact Hst |].
  destruct (contains "why" (lower (strip raw))); [exact Hst |].
  destruct (contains "suggested improvement" (lower (strip raw))
            || contains "improvement" (lower (strip raw))); [exact Hst |].
  destruct (startswith "```" (strip raw)); [exact Hst |].
  destruct (nonempty (strip raw)); [| exact Hst].
  destruct active as [tag|]; [| exact Hst].
  cbn [snd] in Hst. destruct Hst as [H1 [H2 [H3 H4]]].
  destruct tag; cbn [snd append_text]; unfold texts_flat;
    cbn [positive_rephrasing_text the_why_text suggested_improvement_text code_example_text];
    (split; [| split; [| split]]); try assumption; now apply flat_append.
Qed.

Lemma machine_fold_flat (lines : list string) :
  Forall (fun line => has_char (ascii_of_nat 10) line = false) lines ->
  forall st, texts_flat (snd st) -> texts_flat (snd (fold_left machine_step lines st)).
Proof.
  induction 1 as [|raw rest Hraw _ IH]; intros st Hst; [exact Hst |].
  simpl. apply IH. now apply machine_step_flat.
Qed.

(** X15.  Each of the four texts the parser returns is on one line: it holds
    no line feed, so a fenced example of several lines is joined into one
    line; and each text is empty or ends with a space. *)
Theorem parsed_texts_are_flat (response_text : string) :
  Forall (fun key =>
            exists text,
              dict_get key (_parse_fallback_response response_text) = Some (JStr text)
              /\ contains nl text = false
              /\ (text = "" \/ exists body, text = body ++ " "))
         ["positive_rephrasing"; "the_why"; "suggested_improvement"; "code_example"].
Proof.
  rewrite parse_fallback_refines.
  assert (H : texts_flat (machine_parse response_text)).
  { unfold machine_parse, machine_run.
    apply machine_fold_flat; [apply split_nl_no_newline |].
    repeat split; auto. }
  destruct H as [[H1 T1] [[H2 T2] [[H3 T3] [H4 T4]]]].
  unfold nl. repeat constructor; eexists; (split; [reflexivity |]);
    rewrite contains_char; split; assumption.
Qed.

(** ** The summary *)

Lemma summary_run {rt : runtime} (code : string) (comments : list string)
  (feedback : list json) (w : world rt) :
  _generate_holistic_summary code comments feedback w
  = (Returns match fst (generate_content rt (summary_prompt comments) (pstate w)) with
             | Some text => strip text
             | None => fallback_summary
             end,
     {| pstate := snd (generate_content rt (summary_prompt comments) (pstate w));
        calls := (calls w ++ [CallGenerate (summary_prompt comments)])%list |}).
Proof.
  unfold _generate_holistic_summary, try_except, bind, call_generate, ret.
  destruct (generate_content rt (summary_prompt comments) (pstate w)) as [[text|] s];
    reflexivity.
Qed.

(** X16.  The summary step never raises and calls the generation provider
    once: it returns the stripped text of the provider, or the fixed
    sentence when the provider fails.  It looks at the number of comments
    only: the snippet, the texts of the comments and the feedback gathered
    for them do not reach the prompt. *)
Theorem holistic_summary_spec (rt : runtime) (code : string) (comments : list string)
  (feedback : list json) (w : world rt) :
  (exists summary w',
     _generate_holistic_summary code comments feedback w = (Returns summary, w')
     /\ calls w' = (calls w ++ [CallGenerate (summary_prompt comments)])%list
     /\ summary = match fst (generate_content rt (summary_prompt comments) (pstate w)) with
                  | Some text => strip text
                  | None => fallback_summary
                  end)
  /\ (forall code' comments' feedback',
        length comments' = length comments ->
        _generate_holistic_summary code' comments' feedback' w
        = _generate_holistic_summary code comments feedback w).
Proof.
  split.
  - rewrite summary_run. eexists _, _. repeat split.
  - intros code' comments' feedback' Hlen. rewrite !summary_run.
    unfold summary_prompt. now rewrite Hlen.
Qed.

Lemma holistic_summary_spec_witness :
  let rt := stub_runtime (fun _ => Some "  Well done.  ") (fun _ => None) no_hits in
  _generate_holistic_summary (rt := rt) "x = 2" ["Use a constant."] [JNull] (stub_world rt 0%nat)
  = _generate_holistic_summary (rt := rt) "u = 1" ["This is bad"] [] (stub_world rt 0%nat).
Proof.
  intros rt.
  apply (proj2 (holistic_summary_spec rt "u = 1" ["This is bad"] [] (stub_world rt 0%nat))).
  reflexivity.
Defined.

(** ** The provider calls of a review *)

Lemma embedded_texts_app (a b : list call) :
  embedded_texts (a ++ b) = (embedded_texts a ++ embedded_texts b)%list.
Proof.
  induction a as [|[text | prompt] a IH]; simpl; [reflexivity | now rewrite IH | exact IH].
Qed.

Lemma generated_prompts_app (a b : list call) :
  generated_prompts (a ++ b) = (generated_prompts a ++ generated_prompts b)%list.
Proof.
  induction a as [|[text | prompt] a IH]; simpl; [reflexivity | exact IH | now rewrite IH].
Qed.

Lemma review_loop_calls {rt : runtime} (self : EmpathethicCodeReviewer) (code : string)
  (comments : list string) :
  forall i report feedback (w : world rt) out feedback' w',
    review_loop self code comments i report feedback w = (Returns (out, feedback'), w') ->
    exists new,
      calls w' = (calls w ++ new)%list
      /\ embedded_texts new = comments
      /\ length (generated_prompts new) = length comments.
Proof.
  induction comments as [|comment rest IH]; intros i report feedback w out feedback' w' H.
  - injection H as _ _ <-. exists []. now rewrite app_nil_r.
  - cbn [review_loop] in H. unfold bind at 1 in H.
    destruct (retrieve_run (rag_system self) comment 3 w) as [q [w1 [Hc1 Hrun]]].
    rewrite Hrun in H.
    destruct (obind (faiss_search rt _ q 3) _) as [knowledge | e]; [| discriminate].
    unfold bind at 1 in H.
    destruct (severity_guidance_known _ (determine_severity_range comment)) as [guidance Hg].
    rewrite (response_run code comment _ guidance knowledge w1 Hg) in H. cbv zeta in H.
    unfold bind at 1, lift in H.
    destruct (render_section i comment _) as [section | e]; [| discriminate].
    apply IH in H. destruct H as [new [Hc [He Hp]]]. cbn [calls] in Hc.
    eexists (CallEmbed comment :: CallGenerate _ :: new). split; [| split].
    + rewrite Hc, Hc1, <- !app_assoc. reflexivity.
    + simpl. now rewrite He.
    + simpl. now rewrite Hp.
Qed.

(** X17.  A review that returns a report has embedded each comment once, in
    the order of the input, and nothing else; it has called the generation
    provider once per comment and then once more, with the prompt of the
    summary. *)
Theorem process_review_calls (rt : runtime) (self : EmpathethicCodeReviewer)
  (code : string) (comments : list string) (w : world rt) :
  code <> "" ->
  comments <> [] ->
  returned (fst (process_review self
                   {| code_snippet := Some code; review_comments := Some comments |} w))
  = true ->
  exists new prompts,
    calls (snd (process_review self
                  {| code_snippet := Some code; review_comments := Some comments |} w))
    = (calls w ++ new)%list
    /\ embedded_texts new = comments
    /\ generated_prompts new = (prompts ++ [summary_prompt comments])%list
    /\ length prompts = length comments.
Proof.
  intros Hcode Hcomments.
  destruct code as [|c code']; [congruence |].
  destruct comments as [|comment rest]; [congruence |].
  unfold process_review. cbn [code_snippet review_comments nonempty negb orb].
  unfold bind.
  destruct (review_loop self (String c code') (comment :: rest) 1 _ [] w)
    as [[[out feedback] | e] w1] eqn:Eloop; [| discriminate].
  intros _. cbv beta iota. rewrite summary_run. unfold ret. cbn [snd calls].
  apply review_loop_calls in Eloop. destruct Eloop as [new [Hc [He Hp]]].
  exists (new ++ [CallGenerate (summary_prompt (comment :: rest))])%list,
         (generated_prompts new).
  rewrite Hc, embedded_texts_app, generated_prompts_app, <- app_assoc. simpl.
  rewrite app_nil_r. auto.
Qed.

Lemma process_review_calls_witness :
  let rt := stub_runtime (fun _ => Some sample_answer) (fun _ => None) no_hits in
  let input := {| code_snippet := Some "u = 1";
                  review_comments := Some ["Variable 'u' is a bad name."; "Consider a test."] |} in
  exists new prompts,
    calls (snd (process_review (rt := rt) stub_reviewer input (stub_world rt 0%nat)))
    = (calls (stub_world rt 0%nat) ++ new)%list
    /\ embedded_texts new = ["Variable 'u' is a bad name."; "Consider a test."]
    /\ generated_prompts new
       = (prompts ++ [summary_prompt ["Variable 'u' is a bad name."; "Consider a test."]])%list
    /\ length prompts = 2%nat.
Proof.
  intros rt input.
  apply (process_review_calls rt stub_reviewer "u = 1"
           ["Variable 'u' is a bad name."; "Consider a test."] (stub_world rt 0%nat)).
  - discriminate.
  - discriminate.
  - vm_compute. reflexivity.
Defined.

(** ** The report when the generation provider is down *)

Lemma review_loop_outage {rt : runtime} (self : EmpathethicCodeReviewer) (code : string) :
  (forall prompt s, fst (generate_content rt prompt s) = None) ->
  knowledge_base (rag_system self) <> [] ->
  (forall q, exists hits,
      faiss_search rt (index (rag_system self)) q 3 = Returns hits
      /\ Forall (fun h => (-1 <= snd h)%Z) hits) ->
  forall comments i report feedback (w : world rt),
    exists feedback' w',
      review_loop self code comments i report feedback w
      = (Returns (report
                  ++ String.concat ""
                       (map (fun ic => section_text (rt := rt) (fst ic) (snd ic)
                                         fallback_response [])
                            (numbered i comments)),
                  feedback'), w').
Proof.
  intros Hfail Hkb Hsearch.
  induction comments as [|comment rest IH]; intros i report feedback w.
  - exists feedback, w. simpl. now rewrite string_app_nil_r.
  - cbn [review_loop]. unfold bind at 1.
    destruct (retrieve_returns (rag_system self) comment 3 w Hkb Hsearch)
      as [knowledge [w1 ->]].
    unfold bind at 1.
    destruct (severity_guidance_known _ (determine_severity_range comment)) as [guidance Hg].
    rewrite (response_run code comment _ guidance knowledge w1 Hg). cbv zeta.
    rewrite Hfail. unfold bind at 1, lift.
    rewrite render_section_dict.
    change (truthy (get_or "resource_links" JNull fallback_response)) with false.
    cbn [obind].
    match goal with |- context [review_loop self code rest (S i) ?r ?f ?w2] =>
      destruct (IH (S i) r f w2) as [feedback' [w' ->]] end.
    exists feedback', w'. unfold numbered. cbn [length seq combine map fst snd].
    now rewrite concat_cons, string_app_assoc.
Qed.

(** X18.  When the generation provider fails on every call and retrieval
    works, the review of any snippet and comments still returns, and the
    report is fully determined: each comment has the section of the fixed
    fallback texts, without resources, and the summary is the fixed
    sentence. *)
Theorem report_when_generation_fails (rt : runtime) (self : EmpathethicCodeReviewer)
  (code : string) (comments : list string) (w : world rt) :
  code <> "" ->
  comments <> [] ->
  (forall prompt s, fst (generate_content rt prompt s) = None) ->
  knowledge_base (rag_system self) <> [] ->
  (forall q, exists hits,
      faiss_search rt (index (rag_system self)) q 3 = Returns hits
      /\ Forall (fun h => (-1 <= snd h)%Z) hits) ->
  exists w',
    process_review self {| code_snippet := Some code; review_comments := Some comments |} w
    = (Returns (report_title ++ code_under_review code
                ++ String.concat ""
                     (map (fun ic => section_text (rt := rt) (fst ic) (snd ic)
                                       fallback_response [])
                          (numbered 1 comments))
                ++ summary_section fallback_summary ++ closing_line), w').
Proof.
  intros Hcode Hcomments Hfail Hkb Hsearch.
  destruct code as [|c code']; [congruence |].
  destruct comments as [|comment rest]; [congruence |].
  unfold process_review. cbn [code_snippet review_comments nonempty negb orb].
  unfold bind at 1.
  destruct (review_loop_outage self (String c code') Hfail Hkb Hsearch (comment :: rest) 1
              (report_title ++ code_under_review (String c code')) [] w)
    as [feedback [w1 ->]].
  unfold bind. rewrite summary_run, Hfail. unfold ret.
  eexists. now rewrite !string_app_assoc.
Qed.

Lemma report_when_generation_fails_witness :
  let rt := stub_runtime (fun _ => None) (fun _ => None) sentinel_hit in
  exists w',
    process_review (rt := rt) stub_reviewer
      {| code_snippet := Some "def f(x): return x==True";
         review_comments := Some ["Boolean comparison is bad"; "Consider a test."] |}
      (stub_world rt 0%nat)
    = (Returns (report_title ++ code_under_review "def f(x): return x==True"
                ++ String.concat ""
                     (map (fun ic => section_text (rt := rt) (fst ic) (snd ic)
                                       fallback_response [])
                          (numbered 1 ["Boolean comparison is bad"; "Consider a test."]))
                ++ summary_section fallback_summary ++ closing_line), w').
Proof.
  intros rt.
  apply (report_when_generation_fails rt stub_reviewer "def f(x): return x==True"
           ["Boolean comparison is bad"; "Consider a test."] (stub_world rt 0%nat)).
  - discriminate.
  - discriminate.
  - intros prompt s. reflexivity.
  - discriminate.
  - intros q. eexists. split; [reflexivity |]. repeat constructor. simpl. lia.
Defined.

(** ** [POST /analyze] *)

(** X19.  [POST /analyze] is [POST /review] with the query as the only
    comment: both leave the same world; when the review answers 200, the
    analysis is its report, with the same flags; when the review answers
    with its exception, so does the analysis, with status 500 and the text
    of the same failure after its own prefix. *)
Theorem analyze_is_single_comment_review (rt : runtime) (reviewer : EmpathethicCodeReviewer)
  (code question : string) (w : world rt) :
  match generate_empathetic_review reviewer
          {| request_code_snippet := code; request_review_comments := [question] |} w,
        analyze_code reviewer {| analysis_code_snippet := code; query := question |} w with
  | (Http200 review, w1), (Analysis200 answer, w2) =>
      analysis answer = markdown_report review
      /\ analysis_success answer = success review
      /\ analysis_message answer = message review
      /\ w2 = w1
  | (HTTPException status detail, w1), (AnalysisException status' detail', w2) =>
      status = 500%Z /\ status' = 500%Z /\ w2 = w1
      /\ exists e, detail = "Error generating review: " ++ exn_str rt e
                   /\ detail' = "Error analyzing code: " ++ exn_str rt e
  | _, _ => False
  end.
Proof.
  unfold generate_empathetic_review, analyze_code.
  cbn [request_code_snippet request_review_comments analysis_code_snippet query].
  destruct (process_review reviewer _ w) as [[report | e] w1].
  - repeat split.
  - repeat split. now exists e.
Qed.

Lemma review_loop_log {rt : runtime} (self : EmpathethicCodeReviewer) (code : string)
  (comments : list string) :
  forall i report feedback (w : world rt),
    exists new,
      calls (snd (review_loop self code comments i report feedback w)) = (calls w ++ new)%list
      /\ match comments with
         | [] => True
         | first :: _ => exists rest, new = CallEmbed first :: rest
         end.
Proof.
  induction comments as [|comment rest IH]; intros i report feedback w.
  - exists []. simpl. now rewrite app_nil_r.
  - cbn [review_loop]. unfold bind at 1.
    destruct (retrieve_run (rag_system self) comment 3 w) as [q [w1 [Hc1 ->]]].
    destruct (obind (faiss_search rt _ q 3) _) as [knowledge | e];
      [| exists [CallEmbed comment]; cbn [snd]; split; [exact Hc1 | now exists []]].
    unfold bind at 1.
    destruct (severity_guidance_known _ (determine_severity_range comment)) as [guidance Hg].
    rewrite (response_run code comment _ guidance knowledge w1 Hg). cbv zeta.
    unfold bind at 1, lift.
    destruct (render_section i comment _) as [section | e].
    + match goal with |- context [review_loop self code rest (S i) ?r ?f ?w2] =>
        destruct (IH (S i) r f w2) as [new [Hc _]] end.
      eexists (CallEmbed comment :: CallGenerate _ :: new). split; [| now eexists].
      rewrite Hc. cbn [calls]. rewrite Hc1, <- !app_assoc. reflexivity.
    + eexists [CallEmbed comment; CallGenerate _]. cbn [snd calls].
      split; [| now eexists]. rewrite Hc1, <- app_assoc. reflexivity.
Qed.

Lemma process_review_first_call {rt : runtime} (self : EmpathethicCodeReviewer)
  (code first : string) (more : list string) (w : world rt) :
  code <> "" ->
  exists rest,
    calls (snd (process_review self
                  {| code_snippet := Some code; review_comments := Some (first :: more) |} w))
    = (calls w ++ CallEmbed first :: rest)%list.
Proof.
  intros Hcode. destruct code as [|c code']; [congruence |].
  unfold process_review. cbn [code_snippet review_comments nonempty negb orb].
  unfold bind at 1.
  destruct (review_loop_log self (String c code') (first :: more) 1
              (report_title ++ code_under_review (String c code')) [] w)
    as [new [Hc [rest ->]]].
  destruct (review_loop self (String c code') (first :: more) 1 _ [] w)
    as [[[out feedback] | e] w1]; cbn [snd] in Hc.
  - unfold bind. rewrite summary_run. unfold ret. cbn [snd calls].
    exists (rest ++ [CallGenerate (summary_prompt (first :: more))])%list.
    rewrite Hc, <- app_assoc. reflexivity.
  - exists rest. exact Hc.
Qed.

(** X20.  Through [POST /analyze] only the snippet can trigger the guard
    against missing input: an empty snippet is answered with the message of
    the core, at status 200 and without any provider call, while the query
    is always reviewed, also when it is empty: with a snippet, the first
    provider call is the embedding of the query. *)
Theorem analyze_reviews_any_query (rt : runtime) (reviewer : EmpathethicCodeReviewer)
  (code question : string) (w : world rt) :
  (code = "" ->
   analyze_code reviewer {| analysis_code_snippet := code; query := question |} w
   = (Analysis200 {| analysis := "Error: Missing code snippet or review comments.";
                     analysis_success := true;
                     analysis_message := "" |}, w))
  /\ (code <> "" ->
      exists rest,
        calls (snd (analyze_code reviewer
                      {| analysis_code_snippet := code; query := question |} w))
        = (calls w ++ CallEmbed question :: rest)%list).
Proof.
  unfold analyze_code. cbn [analysis_code_snippet query]. split.
  - intros ->. reflexivity.
  - intros Hcode.
    destruct (process_review_first_call reviewer code question [] w Hcode) as [rest Hc].
    exists rest.
    destruct (process_review reviewer _ w) as [[report | e] w1]; exact Hc.
Qed.

Lemma analyze_reviews_any_query_witness :
  let rt := stub_runtime (fun _ => Some sample_answer) (fun _ => None) no_hits in
  exists rest,
    calls (snd (analyze_code (rt := rt) stub_reviewer
                  {| analysis_code_snippet := "u = 1"; query := "" |} (stub_world rt 0%nat)))
    = (calls (stub_world rt 0%nat) ++ CallEmbed "" :: rest)%list.
Proof.
  intros rt.
  apply (proj2 (analyze_reviews_any_query rt stub_reviewer "u = 1" "" (stub_world rt 0%nat))).
  discriminate.
Defined.

(** ** The report, section by section *)

Section ReportSections.

Context {rt : runtime}.











End ReportSections.



(** ** White space and comparison: closed examples *)

(** A fence after an ideographic space is a fence: the parser strips the
    line before it tests it. *)
Example parser_strips_ideographic_space :
  _parse_fallback_response (ideographic_space ++ "```" ++ nl ++ "x = 1")
  = [ ("positive_rephrasing", JStr "");
      ("the_why", JStr "");
      ("suggested_improvement", JStr "");
      ("code_example", JStr "x = 1 ");
      ("resource_links", JArr []) ].
Proof. vm_compute. reflexivity. Qed.

(** The summary loses the no-break space before it and the ideographic space
    and the line feed after it. *)
Example summary_strips_unicode_space :
  let rt := stub_runtime (fun _ => Some (no_break_space ++ "Well done." ++ ideographic_space ++ nl))
              (fun _ => None) no_hits in
  fst (_generate_holistic_summary (rt := rt) "u = 1" ["This is bad"] [] (stub_world rt 0%nat))
  = Returns "Well done.".
Proof. vm_compute. reflexivity. Qed.

(** A hit that scores exactly the [float32] nearest to one tenth is dropped
    when the comparison is made in [float32] and kept when it is made in
    [float64]. *)
Example tenth_in_float32_is_on_the_edge :
  let rt := stub_runtime (fun _ => None) (fun _ => None) no_hits in
  let kb := knowledge_base (rag_system stub_reviewer) in
  select_hits (rt := rt) kb [(threshold_float32, (-1)%Z)] [] = Returns []
  /\ select_hits (rt := with_float64_comparison rt) kb [(threshold_float32, (-1)%Z)] []
     = Returns [zero_item 768
                  {| entry_content := "Filter operations in functional programming can be combined with map operations for cleaner, more readable code.";
                     entry_category := "functional_programming";
                     entry_resource_link := "https://docs.python.org/3/howto/functional.html" |}].
Proof. split; vm_compute; reflexivity. Qed.
